(** * pelican_bibtex: a shallow embedding of [add_publications]

    The plugin reads a BibTeX file, formats every entry with a pybtex style
    derived from [plain.Style], builds one 8-tuple per formatted entry and
    stores the list, sorted by year, in the generator's context.

    Conventions of the embedding.
    - Python strings are [string]s; a [str] is taken in its UTF-8 encoding,
      for which the byte-wise lexicographic order of [String.ltb] is the
      code point order Python 3 uses to compare two [str] values.
    - The interpreter is Python 3, for which the source provides (it takes
      [StringIO] from [io] when the Python 2 module is missing): ordering
      [None] against a [str] raises [TypeError].
    - Exceptions are values of [exn]; a computation that may raise returns
      a [result].
    - pybtex is the version whose styles dispatch on [format_<type>]
      methods and are called as [template.format_data(entry)], which is how
      the source uses it.  The parts of pybtex the source calls are either
      written out (the template combinators, [date], [pages], the methods
      [CustomStyle] inherits) or taken as fields of the record [Pybtex]
      (parser, writer, name style, ties, links clause, entry ordering of
      the style, templates of the entry types the source does not
      override).  Field values are taken without LaTeX markup, and the
      writer is taken not to reject an entry the parser has produced. *)

From Stdlib Require Import Ascii String List Bool Arith Lia Permutation.
From stdpp Require Import base option list sorting gmap strings.

Local Open Scope stdpp_scope.

(** ** Exceptions and results *)

Inductive exn : Type :=
  | FieldIsMissing (name key : string)
  | PybtexError (msg : string)
  | TypeError
  | KeyError (k : string)
  | AttributeError (name : string)
  | OSError (msg : string).

Inductive result (A : Type) : Type :=
  | Ok (a : A)
  | Raise (e : exn).

Arguments Ok {A} a.
Arguments Raise {A} e.

#[global] Instance result_ret : MRet result := fun A a => Ok a.
#[global] Instance result_bind : MBind result := fun A B f m =>
  match m with
  | Ok a => f a
  | Raise e => Raise e
  end.

(** ** Substrings *)

(** [needle in haystack] of Python, as a proposition and as a test. *)
Definition contains (needle haystack : string) : Prop :=
  ∃ pre post, haystack = pre +:+ needle +:+ post.



(** ** Rich text ([pybtex.richtext]) *)

#[warnings="-register-all"]
Inductive Richtext : Type :=
  | RString (s : string)
  | RSymbol (name : string)
  | RTag (name : string) (parts : list Richtext)
  | RHRef (url : string) (parts : list Richtext)
  | RText (parts : list Richtext).

(** [bool(text)]: rich text is true when its plain text is not empty; a
    symbol counts as one character. *)
Fixpoint rt_nonempty (t : Richtext) : bool :=
  match t with
  | RString s => negb (String.eqb s "")
  | RSymbol _ => true
  | RTag _ parts | RHRef _ parts | RText parts => existsb rt_nonempty parts
  end.

(** The plain characters of a text; symbols contribute none. *)
Fixpoint rt_plain (t : Richtext) : string :=
  match t with
  | RString s => s
  | RSymbol _ => ""
  | RTag _ parts | RHRef _ parts | RText parts =>
      fold_right (fun p acc => rt_plain p +:+ acc) "" parts
  end.

Fixpoint last_char (s : string) : option ascii :=
  match s with
  | EmptyString => None
  | String a EmptyString => Some a
  | String _ s' => last_char s'
  end.

(** The last non-empty leaf of a text decides [endswith]; a symbol never
    ends with a character. *)
Fixpoint rt_last (t : Richtext) : option ascii :=
  match t with
  | RString s => last_char s
  | RSymbol _ => None
  | RTag _ parts | RHRef _ parts | RText parts =>
      fold_right (fun p acc =>
                    match acc with
                    | Some r => Some r
                    | None => if rt_nonempty p then Some (rt_last p) else None
                    end) None parts
      ≫= id
  end.

Definition ends_sentence (t : Richtext) : bool :=
  match rt_last t with
  | Some c => Ascii.eqb c "." || Ascii.eqb c "?" || Ascii.eqb c "!"
  | None => false
  end.

(** [text.add_period()] *)
Definition add_period (t : Richtext) : Richtext :=
  if rt_nonempty t && negb (ends_sentence t) then RText [t; RString "."] else t.

(** [sep.join(parts)] on rich text. *)
Fixpoint rt_join (sep : Richtext) (parts : list Richtext) : list Richtext :=
  match parts with
  | [] => []
  | [p] => [p]
  | p :: rest => p :: sep :: rt_join sep rest
  end.

(** ** The HTML backend ([pybtex.backends.html]) *)

Definition escape_char (c : ascii) : string :=
  if Ascii.eqb c "&" then "&amp;"
  else if Ascii.eqb c "<" then "&lt;"
  else if Ascii.eqb c ">" then "&gt;"
  else String c "".

Fixpoint escape (s : string) : string :=
  match s with
  | EmptyString => ""
  | String c s' => escape_char c +:+ escape s'
  end.

(** [html.Backend.symbols], before the source updates it. *)
Definition html_symbols : gmap string string :=
  <["ndash" := "&ndash;"]> (<["newblock" := String "010" ""]> (<["nbsp" := "&nbsp;"]> ∅)).

(** The one-character string holding a double quote. *)
Definition dquote : string := String (ascii_of_nat 34) "".

Definition format_tag (name text : string) : string :=
  if String.eqb text "" then "" else "<" +:+ name +:+ ">" +:+ text +:+ "</" +:+ name +:+ ">".

Definition format_href (url text : string) : string :=
  if String.eqb text "" then ""
  else "<a href=" +:+ dquote +:+ url +:+ dquote +:+ ">" +:+ text +:+ "</a>".

Section render.
Variable symbols : gmap string string.

(** [text.render(backend)]; an unknown symbol is a [KeyError]. *)
Fixpoint render (t : Richtext) : result string :=
  let render_parts :=
    fix go (l : list Richtext) : result string :=
      match l with
      | [] => Ok ""
      | p :: l' => a ← render p; b ← go l'; Ok (a +:+ b)
      end in
  match t with
  | RString s => Ok (escape s)
  | RSymbol name =>
      match symbols !! name with
      | Some s => Ok s
      | None => Raise (KeyError name)
      end
  | RTag name parts => s ← render_parts parts; Ok (format_tag name s)
  | RHRef url parts => s ← render_parts parts; Ok (format_href url s)
  | RText parts => render_parts parts
  end.
End render.

(** ** The bibliography model ([pybtex.database]) *)

Record Person : Type := {
  first_names : list string;
  middle_names : list string;
  prelast_names : list string;
  last_names : list string;
  lineage_names : list string;
}.

(** An entry: its type tag, its key, its fields and its persons (authors
    and editors are kept by role, outside [fields]). *)
Record Entry : Type := {
  entry_type : string;
  key : string;
  fields : gmap string string;
  persons : gmap string (list Person);
}.

(** [BibliographyData.entries]: an ordered mapping from key to entry, in
    parse order. *)
Definition BibliographyData : Type := list (string * Entry).

Definition values (bib : BibliographyData) : list Entry := bib.*2.

(** [bib.entries[k]] *)
Fixpoint entries_get (bib : BibliographyData) (k : string) : result Entry :=
  match bib with
  | [] => Raise (KeyError k)
  | (k', e) :: bib' => if String.eqb k k' then Ok e else entries_get bib' k
  end.

(** What the parser guarantees of a database: keys are unique and every
    entry knows the key it is stored under. *)
Definition wf_bibdata (bib : BibliographyData) : Prop :=
  NoDup bib.*1 ∧ Forall (λ ke, key ke.2 = ke.1) bib.

(** ** Templates ([pybtex.style.template]) *)

(** A template node, through its [format_data]. *)
Definition Template : Type := Entry → result Richtext.

(** A child that is a plain string or a rich text object, not a node. *)
Definition lit (s : string) : Template := λ _, Ok (RString s).
Definition Symbol (name : string) : Template := λ _, Ok (RSymbol name).

(** [_format_list], consumed to the end. *)
Fixpoint format_list (children : list Template) (e : Entry) : result (list Richtext) :=
  match children with
  | [] => Ok []
  | c :: cs => t ← c e; ts ← format_list cs e; Ok (t :: ts)
  end.

Definition join_parts (sep sep2 last_sep : Richtext) (parts : list Richtext) : Richtext :=
  match parts with
  | [] | [_] => RText parts
  | [_; _] => RText (rt_join sep2 parts)
  | _ => RText (rt_join last_sep
                  [RText (rt_join sep (removelast parts)); List.last parts (RText [])])
  end.

(** [join(sep, sep2, last_sep)[children]] *)
Definition join_with (sep sep2 last_sep : Richtext) (children : list Template) : Template :=
  λ e, parts ← format_list children e;
       Ok (join_parts sep sep2 last_sep (List.filter rt_nonempty parts)).

Definition join_sep (sep : Richtext) : list Template → Template := join_with sep sep sep.
Definition join : list Template → Template := join_sep (RString "").
Definition words : list Template → Template := join_sep (RString " ").

(** [sentence[children]], with its defaults: separator [', '], no change
    of case, a period added. *)
Definition sentence (children : list Template) : Template :=
  λ e, text ← join_sep (RString ", ") children e; Ok (add_period text).

Definition toplevel : list Template → Template := join_sep (RSymbol "newblock").

(** [field(name, apply_func)] *)
Definition field_with (apply_func : string → Richtext) (name : string) : Template :=
  λ e, match fields e !! name with
       | Some v => Ok (apply_func v)
       | None => Raise (FieldIsMissing name (key e))
       end.

Definition field : string → Template := field_with RString.

(** [optional[children]]: a missing field, and nothing else, is absorbed. *)
Definition optional (children : list Template) : Template :=
  λ e, match format_list children e with
       | Ok parts => Ok (RText parts)
       | Raise (FieldIsMissing _ _) => Ok (RText [])
       | Raise x => Raise x
       end.

Definition optional_field (name : string) : Template := optional [field name].

Definition tag (name : string) (children : list Template) : Template :=
  λ e, parts ← format_list children e; Ok (RTag name parts).

Definition href (url : Template) (children : list Template) : Template :=
  λ e, u ← url e; parts ← format_list children e; Ok (RHRef (rt_plain u) parts).

(** [first_of[children]]: children are formatted one at a time and the
    first non-empty one is returned; later ones are not formatted. *)
Fixpoint first_of (children : list Template) : Template :=
  λ e, match children with
       | [] => Ok (RText [])
       | c :: cs => t ← c e; if rt_nonempty t then Ok t else first_of cs e
       end.

(** ** The library interface *)

(** A formatted entry as the style yields it (its label is not used by the
    plugin and is left out). *)
Record FormattedEntry : Type := {
  fe_key : string;
  fe_text : Richtext;
}.

(** The capabilities of pybtex that the plugin composes and does not
    define.
    - [parse_file]: [Parser().parse_file(path)]; malformed input is a
      [PybtexError], an unreadable file some other exception.
    - [write_stream]: what [Writer().write_stream(bib, buf)] leaves in the
      buffer.
    - [parse_string]: the parser applied to a text instead of a file.
    - [format_name]: the name style of the formatting style.
    - [together]: how [together[...]] ties its non-empty parts.
    - [format_web_refs]: the links clause of [unsrt.Style]; all of its
      parts are optional.
    - [style_sort]: the [sort] of the style's sorting plugin, which gives
      the order in which [format_entries] formats and yields the entries.
      [unsrt.Style] has the sorting style 'none'; [plain.Style], from
      which [CustomStyle] derives, has 'author_year_title'.
    - [inherited_format]: the [format_<type>] methods [plain.Style] has for
      the entry types [CustomStyle] does not override. *)
Record Pybtex : Type := {
  parse_file : string → result BibliographyData;
  write_stream : BibliographyData → string;
  parse_string : string → result BibliographyData;
  format_name : Person → Richtext;
  together : list Richtext → Richtext;
  format_web_refs : Entry → Richtext;
  style_sort : list Entry → list Entry;
  inherited_format : string → option Template;
}.

(** ** [pybtex.style.formatting.unsrt] *)

Module unsrt.

(** [re.split('-+', s)] *)
Fixpoint dash_split_go (cur : string) (in_dashes : bool) (s : string) : list string :=
  match s with
  | EmptyString => [cur]
  | String c s' =>
      if Ascii.eqb c "-"
      then if in_dashes then dash_split_go cur true s'
           else cur :: dash_split_go "" true s'
      else dash_split_go (cur +:+ String c "") false s'
  end.

Definition dash_split : string → list string := dash_split_go "" false.

Definition dashify (v : string) : Richtext :=
  RText (rt_join (RSymbol "ndash") (RString <$> dash_split v)).

Definition pages : Template := field_with dashify "pages".

Definition date : Template := words [optional_field "month"; field "year"].

Section style.
Variable lib : Pybtex.

(** [names(role, sep, sep2, last_sep)] *)
Definition names (role : string) (sep sep2 last_sep : string) : Template :=
  λ e, match persons e !! role with
       | None => Raise (FieldIsMissing role (key e))
       | Some ps =>
           join_with (RString sep) (RString sep2) (RString last_sep)
             ((λ p _, Ok (format_name lib p)) <$> ps) e
       end.

Definition format_names (role : string) (as_sentence : bool) : Template :=
  let formatted_names := names role ", " " and " ", and " in
  if as_sentence then sentence [formatted_names] else formatted_names.

Definition format_editor (e : Entry) (as_sentence : bool) : Template :=
  let editors := format_names "editor" false in
  match persons e !! "editor" with
  | None => editors
  | Some ps =>
      let word := if 1 <? length ps then "editors" else "editor" in
      let result := join_sep (RString ", ") [editors; lit word] in
      if as_sentence then sentence [result] else result
  end.

Definition format_btitle (e : Entry) (which_field : string) (as_sentence : bool) : Template :=
  let formatted_title := tag "em" [field which_field] in
  if as_sentence then sentence [formatted_title] else formatted_title.

Definition together_node (children : list Template) : Template :=
  λ e, parts ← format_list children e;
       Ok (together lib (List.filter rt_nonempty parts)).

(** [format_volume_and_series(e, as_sentence=False)], the only way the
    source calls it. *)
Definition format_volume_and_series (e : Entry) : Template :=
  let volume_and_series :=
    optional [words [together_node [lit "volume"; field "volume"];
                     optional [words [lit "of"; field "series"]]]] in
  let number_and_series :=
    optional [words [join_sep (RSymbol "nbsp") [lit "number"; field "number"];
                     optional [words [lit "in"; field "series"]]]] in
  let series := optional_field "series" in
  first_of [volume_and_series; number_and_series; series].

(** Everything is optional here, except the date. *)
Definition format_address_organization_publisher_date (e : Entry) : Template :=
  let organization := optional_field "organization" in
  first_of [
    optional [
      join_sep (RString " ") [
        sentence [field "address"; date];
        sentence [organization; optional_field "publisher"]
      ]
    ];
    sentence [organization; optional_field "publisher"; date]
  ].
End style.
End unsrt.

(** ** [CustomStyle] *)

Section CustomStyle.
Variable lib : Pybtex.

Definition format_bold_title (e : Entry) (which_field : string) (as_sentence : bool) : Template :=
  let formatted_title := tag "strong" [field which_field] in
  if as_sentence then sentence [formatted_title] else formatted_title.

Definition web_refs (e : Entry) : Template := λ _, Ok (format_web_refs lib e).

Definition format_inproceedings (e : Entry) : result Richtext :=
  let template := toplevel [
    format_bold_title e "title" true;
    Symbol "newline";
    sentence [unsrt.format_names lib "author" true];
    Symbol "newline";
    words [
      lit "In";
      sentence [
        optional [unsrt.format_editor lib e false];
        unsrt.format_btitle e "booktitle" false;
        unsrt.format_volume_and_series lib e
      ];
      unsrt.format_address_organization_publisher_date e
    ];
    sentence [optional_field "note"];
    web_refs e
  ] in
  template e.

(** The volume/pages clause of an article. *)
Definition volume_and_pages : Template :=
  first_of [
    optional [
      join [field "volume"; optional [lit "("; field "number"; lit ")"]; lit ":"; unsrt.pages]
    ];
    words [lit "pages"; unsrt.pages]
  ].

Definition format_article (e : Entry) : result Richtext :=
  let template := toplevel [
    format_bold_title e "title" true;
    Symbol "newline";
    unsrt.format_names lib "author" true;
    Symbol "newline";
    sentence [
      tag "em" [field "journal"];
      optional [volume_and_pages];
      unsrt.date
    ];
    sentence [optional_field "note"];
    web_refs e
  ] in
  template e.

Definition format_techreport (e : Entry) : result Richtext :=
  let template := toplevel [
    format_bold_title e "title" true;
    Symbol "newline";
    sentence [unsrt.format_names lib "author" true];
    Symbol "newline";
    sentence [
      words [
        first_of [optional_field "type"; lit "Technical Report"];
        optional_field "number"
      ];
      field "institution";
      optional_field "address";
      unsrt.date
    ];
    sentence [optional_field "note"];
    web_refs e
  ] in
  template e.

(** [getattr(self, "format_" + entry.type)(entry)] *)
Definition format_entry (e : Entry) : result FormattedEntry :=
  text ← (if String.eqb (entry_type e) "article" then format_article e
          else if String.eqb (entry_type e) "inproceedings" then format_inproceedings e
          else if String.eqb (entry_type e) "techreport" then format_techreport e
          else match inherited_format lib (entry_type e) with
               | Some f => f e
               | None => Raise (AttributeError ("format_" +:+ entry_type e))
               end);
  Ok {| fe_key := key e; fe_text := text |}.
End CustomStyle.

(** ** Ordering keys and [list.sort] *)

(** [a < b] on the sort keys, which are [str] or [None]: ordering is
    defined between two strings only. *)
Definition py_lt (a b : option string) : result bool :=
  match a, b with
  | Some x, Some y => Ok (String.ltb x y)
  | _, _ => Raise TypeError
  end.

(** [l.sort(key=keyf, reverse=reversed)].  The built-in sort is stable and
    compares keys with [<] only; with [reverse] it reverses the list, sorts
    it and reverses the result.  The sort itself is written as insertion
    from the left, each element going behind the elements that are not
    greater: a stable sort has one possible result, and in a list of two or
    more elements every element is compared at least once, so the sort
    raises exactly when the built-in one does. *)
Section list_sort.
Context {A : Type} (keyf : A → option string).

Fixpoint insert_right (x : A) (sorted : list A) : result (list A) :=
  match sorted with
  | [] => Ok [x]
  | y :: rest =>
      lt ← py_lt (keyf x) (keyf y);
      if lt : bool then Ok (x :: y :: rest)
      else r ← insert_right x rest; Ok (y :: r)
  end.

Fixpoint sort_loop (sorted rest : list A) : result (list A) :=
  match rest with
  | [] => Ok sorted
  | x :: rest' => s ← insert_right x sorted; sort_loop s rest'
  end.

Definition list_sort (reversed : bool) (l : list A) : result (list A) :=
  s ← sort_loop [] (if reversed then reverse l else l);
  Ok (if reversed then reverse s else s).
End list_sort.

(** ** The plugin *)

(** One element of [generator.context['publications']]: the tuple
    [(key, year, text, bibtex, pdf, slides, poster, entrytype)], slot by
    slot. *)
Record Publication : Type := {
  pub_key : string;
  pub_year : option string;
  pub_text : string;
  pub_bibtex : string;
  pub_pdf : option string;
  pub_slides : option string;
  pub_poster : option string;
  pub_entrytype : option string;
}.

(** [itemgetter(1)] *)
Definition itemgetter_1 : Publication → option string := pub_year.

(** A value of the context: the list this plugin stores, or something
    other plugins and the site generator keep there. *)
Inductive CtxValue : Type :=
  | CtxPublications (l : list Publication)
  | CtxOther (v : string).

Record Generator : Type := {
  settings : gmap string string;
  context : gmap string CtxValue;
}.

(** The records of the module's logger. *)
Inductive LogRecord : Type :=
  | Warning (msg : string).

(** How a call ends. *)
Inductive Completion : Type :=
  | Return
  | Throw (e : exn).

(** The interpreter's environment: pybtex may not be importable. *)
Record Env : Type := {
  pybtex : option Pybtex;
}.

Section plugin.
Variable lib : Pybtex.

(** The symbol table of [html_backend] after
    [symbols.update({'newline': '<br>'})]. *)
Definition backend_symbols : gmap string string := <["newline" := "<br>"]> html_symbols.

(** The body of the loop over the formatted entries. *)
Definition make_publication (bibdata_all : BibliographyData) (formatted_entry : FormattedEntry)
  : result Publication :=
  let key := fe_key formatted_entry in
  entry ← entries_get bibdata_all key;
  let year := fields entry !! "year" in
  let pdf := fields entry !! "pdf" in
  let slides := fields entry !! "slides" in
  let poster := fields entry !! "poster" in
  let entrytype := fields entry !! "type" in
  let bibdata_this : BibliographyData := [(key, entry)] in
  let bib_buf := write_stream lib bibdata_this in
  text ← render backend_symbols (fe_text formatted_entry);
  Ok {| pub_key := key; pub_year := year; pub_text := text; pub_bibtex := bib_buf;
        pub_pdf := pdf; pub_slides := slides; pub_poster := poster;
        pub_entrytype := entrytype |}.

(** The loop: [format_entries] is a generator, so an entry is formatted
    when the loop asks for it, after the body has run for the entries
    before it. *)
Fixpoint collect (bibdata_all : BibliographyData) (sorted_entries : list Entry)
  : result (list Publication) :=
  match sorted_entries with
  | [] => Ok []
  | e :: rest =>
      formatted_entry ← format_entry lib e;
      p ← make_publication bibdata_all formatted_entry;
      ps ← collect bibdata_all rest;
      Ok (p :: ps)
  end.

Definition publications_of (bibdata_all : BibliographyData) : result (list Publication) :=
  publications ← collect bibdata_all (style_sort lib (values bibdata_all));
  list_sort itemgetter_1 true publications.
End plugin.

Definition parse_warning (refs_file msg : string) : string :=
  "`pelican_bibtex` failed to parse file " +:+ refs_file +:+ ": " +:+ msg.

Definition set_context (g : Generator) (k : string) (v : CtxValue) : Generator :=
  {| settings := settings g; context := <[k := v]> (context g) |}.

(** [add_publications(generator)]: the generator and the log after the
    call, and how the call ended. *)
Definition add_publications (env : Env) (generator : Generator) (log : list LogRecord)
  : Generator * list LogRecord * Completion :=
  match settings generator !! "PUBLICATIONS_SRC" with
  | None => (generator, log, Return)
  | Some refs_file =>
      match pybtex env with
      | None =>
          (generator,
           log ++ [Warning "`pelican_bibtex` failed to load dependency `pybtex`"],
           Return)
      | Some lib =>
          match parse_file lib refs_file with
          | Raise (PybtexError msg) =>
              (generator, log ++ [Warning (parse_warning refs_file msg)], Return)
          | Raise x => (generator, log, Throw x)
          | Ok bibdata_all =>
              match publications_of lib bibdata_all with
              | Raise x => (generator, log, Throw x)
              | Ok publications =>
                  (set_context generator "publications" (CtxPublications publications),
                   log, Return)
              end
          end
      end
  end.

(** ** A library instance

    An instance of [Pybtex] on which the plugin can be run: a file system
    given as a function, the entry ordering of [plain.Style], a name style
    that writes the parts of a name in order, and the templates of
    [unsrt.Style] for the links clause and for [misc] entries. *)

Module plain_style.

Definition lower_char (c : ascii) : ascii :=
  let n := nat_of_ascii c in
  if (65 <=? n) && (n <=? 90) then ascii_of_nat (n + 32) else c.

Definition upper_char (c : ascii) : ascii :=
  let n := nat_of_ascii c in
  if (97 <=? n) && (n <=? 122) then ascii_of_nat (n - 32) else c.

(** [str.lower] and [str.capitalize], on ASCII letters. *)
Fixpoint lower (s : string) : string :=
  match s with
  | EmptyString => ""
  | String c s' => String (lower_char c) (lower s')
  end.

Definition capitalize (s : string) : string :=
  match s with
  | EmptyString => ""
  | String c s' => String (upper_char c) (lower s')
  end.

(** [sep.join(l)] on strings. *)
Fixpoint str_join (sep : string) (l : list string) : string :=
  match l with
  | [] => ""
  | [x] => x
  | x :: rest => x +:+ sep +:+ str_join sep rest
  end.

(** *** [pybtex.style.sorting.author_year_title]

    The sorting style of [plain.Style]: entries are ordered by the key
    (authors, year, title), the year and the title being the empty string
    when the field is missing. *)

Definition person_key (p : Person) : string :=
  lower (str_join "  " [
    str_join " " (prelast_names p ++ last_names p);
    str_join " " (first_names p ++ middle_names p);
    str_join " " (lineage_names p)
  ]).

Definition persons_key (ps : list Person) : string :=
  str_join "   " (person_key <$> ps).

Definition nonempty_persons (e : Entry) (role : string) : option (list Person) :=
  match persons e !! role with
  | Some (p :: ps) => Some (p :: ps)
  | _ => None
  end.

Definition author_editor_key (e : Entry) : string :=
  match nonempty_persons e "author" with
  | Some ps => persons_key ps
  | None =>
      match nonempty_persons e "editor" with
      | Some ps => persons_key ps
      | None => ""
      end
  end.

Definition sorting_key (e : Entry) : string * string * string :=
  let author_key :=
    if String.eqb (entry_type e) "book" || String.eqb (entry_type e) "inbook"
    then author_editor_key e
    else match persons e !! "author" with
         | Some ps => persons_key ps
         | None => ""
         end in
  (author_key, default "" (fields e !! "year"), default "" (fields e !! "title")).

(** [a < b] on tuples of three strings. *)
Definition key_ltb (a b : string * string * string) : bool :=
  let '(a1, a2, a3) := a in
  let '(b1, b2, b3) := b in
  if String.ltb a1 b1 then true
  else if String.ltb b1 a1 then false
  else if String.ltb a2 b2 then true
  else if String.ltb b2 a2 then false
  else String.ltb a3 b3.

Fixpoint insert_by_key (x : Entry) (sorted : list Entry) : list Entry :=
  match sorted with
  | [] => [x]
  | y :: rest =>
      if key_ltb (sorting_key x) (sorting_key y) then x :: y :: rest
      else y :: insert_by_key x rest
  end.

(** [sort(entries)]: the entries in the order of their sorting keys
    (entries are taken to have different keys). *)
Definition sort_entries (entries : list Entry) : list Entry :=
  fold_left (λ sorted x, insert_by_key x sorted) entries [].

(** *** Names, ties and links *)

(** A name style: the parts of the name in order, separated by spaces. *)
Definition name_text (p : Person) : Richtext :=
  RString (str_join " " (first_names p ++ middle_names p ++ prelast_names p
                         ++ last_names p ++ lineage_names p)).

(** Parts tied with non-breaking spaces. *)
Definition tie_parts (parts : list Richtext) : Richtext :=
  RText (rt_join (RSymbol "nbsp") parts).

(** The links clause, after [unsrt.Style.format_web_refs]. *)
Definition format_url : Template :=
  href (field "url") [join_sep (RString " ") [lit "URL:"; field "url"]].

Definition format_link (prefix label name : string) : Template :=
  href (join [lit prefix; field name]) [join [lit label; field name]].

Definition links (e : Entry) : Richtext :=
  match sentence [
          optional [format_url];
          optional [format_link "http://arxiv.org/abs/" "arXiv:" "eprint"];
          optional [format_link "http://www.ncbi.nlm.nih.gov/pubmed/" "PMID:" "pubmed"];
          optional [format_link "http://dx.doi.org/" "doi:" "doi"]
        ] e with
  | Ok t => t
  | Raise _ => RText []
  end.

Section instance.
(** The files the parser can read, and the parser on texts. *)
Variable files : string → result BibliographyData.
Variable from_text : string → result BibliographyData.
Variable to_text : BibliographyData → string.

(** After [unsrt.Style.format_misc]: authors, title and date are all
    optional. *)
Definition format_misc (lib : Pybtex) (e : Entry) : result Richtext :=
  toplevel [
    optional [sentence [unsrt.format_names lib "author" true]];
    optional [sentence [field_with (λ v, RString (capitalize v)) "title"]];
    sentence [optional [field "howpublished"]; optional [unsrt.date]];
    sentence [optional_field "note"];
    web_refs lib e
  ] e.

Definition base : Pybtex := {|
  parse_file := files;
  write_stream := to_text;
  parse_string := from_text;
  format_name := name_text;
  together := tie_parts;
  format_web_refs := links;
  style_sort := sort_entries;
  inherited_format := λ _, None;
|}.

Definition lib : Pybtex := {|
  parse_file := files;
  write_stream := to_text;
  parse_string := from_text;
  format_name := name_text;
  together := tie_parts;
  format_web_refs := links;
  style_sort := sort_entries;
  inherited_format := λ t, if String.eqb t "misc" then Some (format_misc base) else None;
|}.
End instance.
End plain_style.

(** * The vocabulary of the statements *)

(** Both keys are strings, in order. *)
Definition key_le {A : Type} (keyf : A → option string) (a b : A) : Prop :=
  match keyf a, keyf b with
  | Some x, Some y => String.le x y
  | _, _ => False
  end.

(** A sorted prefix of two or more elements has been compared all
    through, so all of its keys are strings. *)
Definition compared {A : Type} (keyf : A → option string) (s : list A) : Prop :=
  length s ≤ 1 ∨ Forall (λ a, is_Some (keyf a)) s.

(** An entry formats when the style gives it a text and the backend
    renders that text. *)
Definition formats (lib : Pybtex) (e : Entry) : Prop :=
  ∃ fe text, format_entry lib e = Ok fe ∧ render backend_symbols (fe_text fe) = Ok text.

(** [p] is the tuple the loop builds for the entry [e]. *)
Definition record_of (lib : Pybtex) (e : Entry) (p : Publication) : Prop :=
  pub_key p = key e ∧
  pub_year p = fields e !! "year" ∧
  (∃ fe, format_entry lib e = Ok fe ∧ render backend_symbols (fe_text fe) = Ok (pub_text p)) ∧
  pub_bibtex p = write_stream lib [(key e, e)] ∧
  pub_pdf p = fields e !! "pdf" ∧
  pub_slides p = fields e !! "slides" ∧
  pub_poster p = fields e !! "poster" ∧
  pub_entrytype p = fields e !! "type".

(** The generator is configured, pybtex is importable and the file parses
    to [bib]. *)
Definition parsed (env : Env) (lib : Pybtex) (generator : Generator)
    (refs_file : string) (bib : BibliographyData) : Prop :=
  settings generator !! "PUBLICATIONS_SRC" = Some refs_file ∧
  pybtex env = Some lib ∧
  parse_file lib refs_file = Ok bib.

(** The template gives a text for the entry. *)
Definition succeeds (t : Template) (e : Entry) : Prop := ∃ r, t e = Ok r.

(** The template raises nothing but [FieldIsMissing] on the entry. *)
Definition missing_only (t : Template) (e : Entry) : Prop :=
  ∀ x, t e = Raise x → ∃ n k, x = FieldIsMissing n k.

(** What the three templates of [CustomStyle] need of an entry: a title,
    authors, a year, and the venue field of the entry's type. *)
Definition has_required (e : Entry) : Prop :=
  is_Some (fields e !! "title") ∧
  is_Some (persons e !! "author") ∧
  is_Some (fields e !! "year") ∧
  ((entry_type e = "article" ∧ is_Some (fields e !! "journal")) ∨
   (entry_type e = "inproceedings" ∧ is_Some (fields e !! "booktitle")) ∨
   (entry_type e = "techreport" ∧ is_Some (fields e !! "institution"))).

(** The fields the claim calls optional. *)
Definition optional_fields : list string :=
  ["pdf"; "slides"; "poster"; "note"; "number"; "editor"; "series"].

(** The entry without its optional fields and without editors. *)
Definition drop_optional (e : Entry) : Entry := {|
  entry_type := entry_type e;
  key := key e;
  fields := foldr delete (fields e) optional_fields;
  persons := delete "editor" (persons e);
|}.

(** The pages of an entry as the HTML backend writes them. *)
Definition html_pages (p : string) : string :=
  plain_style.str_join "&ndash;" (escape <$> unsrt.dash_split p).





(** The backend renders the text. *)
Definition renders (t : Richtext) : Prop := ∃ s, render backend_symbols t = Ok s.

(** Every text the template gives for the entry is rendered. *)
Definition renders_out (t : Template) (e : Entry) : Prop := ∀ r, t e = Ok r → renders r.

(** The texts the library supplies are rendered by the backend: names,
    tied parts (when the parts are) and the links clause. *)
Definition lib_renders (lib : Pybtex) : Prop :=
  (∀ p, renders (format_name lib p)) ∧
  (∀ l, Forall renders l → renders (together lib l)) ∧
  (∀ e, renders (format_web_refs lib e)).

(** The entry types [CustomStyle] has a template of its own for. *)
Definition own_type (e : Entry) : Prop :=
  entry_type e = "article" ∨ entry_type e = "inproceedings" ∨ entry_type e = "techreport".

(** The field that names the venue, by entry type. *)
Definition venue_field (e : Entry) : string :=
  if String.eqb (entry_type e) "article" then "journal"
  else if String.eqb (entry_type e) "inproceedings" then "booktitle"
  else "institution".

(** The first thing the entry's template asks for and the entry lacks,
    in the order in which the template asks: title, authors, venue,
    year. *)
Definition first_missing (e : Entry) : option string :=
  match fields e !! "title", persons e !! "author",
        fields e !! venue_field e, fields e !! "year" with
  | None, _, _, _ => Some "title"
  | Some _, None, _, _ => Some "author"
  | Some _, Some _, None, _ => Some (venue_field e)
  | Some _, Some _, Some _, None => Some "year"
  | Some _, Some _, Some _, Some _ => None
  end.

(** The first child of a template that raises raises [x]; the children
    before it format. *)
Fixpoint raises_first (children : list Template) (e : Entry) (x : exn) : Prop :=
  match children with
  | [] => False
  | c :: cs => c e = Raise x ∨ (succeeds c e ∧ raises_first cs e x)
  end.

(** The title of an entry as [format_bold_title] and the backend write
    it, as a sentence. *)
Definition bold_title_html (title : string) : string :=
  if String.eqb title "" then ""
  else "<strong>" +:+ escape title +:+ "</strong>"
       +:+ (if ends_sentence (RString title) then "" else ".").



(** * Example data *)

Module examples.

Definition abee : Person := {|
  first_names := ["A."]; middle_names := []; prelast_names := [];
  last_names := ["Bee"]; lineage_names := [];
|}.

Definition entry (type_ k : string) (fs : list (string * string)) : Entry := {|
  entry_type := type_; key := k; fields := list_to_map fs;
  persons := {["author" := [abee]]};
|}.

(** The article of the specification's example. *)
Definition foo : Entry :=
  entry "article" "foo"
    [("title", "Foo"); ("journal", "J"); ("year", "2020"); ("pages", "1-9")].

Definition article (k title year : string) : Entry :=
  entry "article" k [("title", title); ("journal", "J"); ("year", year)].

Definition untitled (k : string) : Entry :=
  entry "misc" k [("title", "notes")].

(** A writer for the instance: type, key and fields of every entry. *)
Definition field_text (f : string * string) : string :=
  "    " +:+ f.1 +:+ " = {" +:+ f.2 +:+ "}," +:+ String "010" "".

Definition entry_text (ke : string * Entry) : string :=
  "@" +:+ entry_type ke.2 +:+ "{" +:+ ke.1 +:+ "," +:+ String "010" ""
  +:+ fold_right (λ f acc, field_text f +:+ acc) "" (map_to_list (fields ke.2))
  +:+ "}" +:+ String "010" "".

Definition to_text (bib : BibliographyData) : string :=
  fold_right (λ ke acc, entry_text ke +:+ acc) "" bib.

(** A parser for the instance: it reads back the texts the writer makes
    of the entries of a known database. *)
Definition from_text (known : BibliographyData) (text : string) : result BibliographyData :=
  match List.find (λ ke, String.eqb (to_text [ke]) text) known with
  | Some ke => Ok [ke]
  | None => Raise (PybtexError "syntax error")
  end.

Definition bib_of (es : list Entry) : BibliographyData := (λ e, (key e, e)) <$> es.

(** A file system with one bibliography, [refs.bib], and one file that
    is not a bibliography, [broken.bib]. *)
Definition files (bib : BibliographyData) (path : string) : result BibliographyData :=
  if String.eqb path "refs.bib" then Ok bib
  else if String.eqb path "broken.bib" then Raise (PybtexError "syntax error at line 1")
  else Raise (OSError path).

Definition lib (bib : BibliographyData) : Pybtex :=
  plain_style.lib (files bib) (from_text bib) to_text.

Definition env (bib : BibliographyData) : Env := {| pybtex := Some (lib bib) |}.

Definition configured (path : string) : Generator := {|
  settings := {["PUBLICATIONS_SRC" := path]};
  context := {["SITENAME" := CtxOther "home"]};
|}.

Definition unconfigured : Generator := {|
  settings := {["SITENAME" := "home"]};
  context := {["SITENAME" := CtxOther "home"]};
|}.
End examples.

(** Three articles with years. *)
Definition bib_articles : BibliographyData :=
  examples.bib_of [examples.article "k1" "Zebra" "2020";
                   examples.article "k2" "Apple" "2020";
                   examples.article "k3" "Mid" "2021"].

(** Two entries with the years 2021 and 2019 and one without a year. *)
Definition bib_no_year : BibliographyData :=
  examples.bib_of [examples.article "k1" "Zebra" "2021";
                   examples.article "k2" "Apple" "2019";
                   examples.untitled "k3"].

(** One entry, of type misc, without a year. *)
Definition bib_single : BibliographyData := examples.bib_of [examples.untitled "k1"].

(** An article without a journal between two complete articles. *)
Definition bib_no_journal : BibliographyData :=
  examples.bib_of [examples.article "k1" "Zebra" "2021";
                   examples.entry "article" "k2" [("title", "Apple"); ("year", "2019")];
                   examples.article "k3" "Mid" "2020"].

(** The example article as the style formats it. *)
Definition foo_formatted : FormattedEntry :=
  Eval vm_compute in
    match format_entry (examples.lib []) examples.foo with
    | Ok fe => fe
    | Raise _ => {| fe_key := "foo"; fe_text := RText [] |}
    end.

(** An interpreter in which pybtex cannot be imported. *)
Definition env_without_pybtex : Env := {| pybtex := None |}.

(** * Properties of the model *)

(** ** The result monad *)

Lemma bind_Ok {A B} (m : result A) (f : A → result B) (b : B) :
  m ≫= f = Ok b ↔ ∃ a, m = Ok a ∧ f a = Ok b.
Proof.
  destruct m as [a|x]; simpl.
  - split; [eauto | by intros (? & [= <-] & ?)].
  - split; [done | by intros (? & ? & ?)].
Qed.

Lemma bind_Raise {A B} (m : result A) (f : A → result B) (x : exn) :
  m ≫= f = Raise x ↔ m = Raise x ∨ ∃ a, m = Ok a ∧ f a = Raise x.
Proof.
  destruct m as [a|y]; simpl.
  - split; [eauto | by intros [? | (? & [= <-] & ?)]].
  - split; [by intros [= ->]; left | by intros [[= ->] | (? & ? & ?)]].
Qed.

(** ** The order of strings *)

Lemma ltb_le (x y : string) : String.ltb x y = true → String.le x y.
Proof.
  unfold String.ltb, String.le, String.leb.
  by destruct (String.compare x y).
Qed.

Lemma ltb_false_le (x y : string) : String.ltb x y = false → String.le y x.
Proof.
  unfold String.ltb, String.le, String.leb.
  rewrite (String.compare_antisym x y).
  by destruct (String.compare y x).
Qed.

Lemma ltb_not_le (x y : string) : String.ltb x y = true → ¬ String.le y x.
Proof.
  unfold String.ltb, String.le, String.leb.
  rewrite (String.compare_antisym x y).
  destruct (String.compare y x); simpl; [discriminate | discriminate | tauto].
Qed.

Lemma ltb_irrefl (x : string) : String.ltb x x = false.
Proof.
  destruct (String.ltb x x) eqn:H; [|done].
  by apply ltb_not_le in H.
Qed.

(** ** [list.sort] *)

Lemma filter_none {A} (P : A → Prop) `{∀ x, Decision (P x)} (l : list A) :
  Forall (λ a, ¬ P a) l → filter P l = [].
Proof.
  induction 1 as [|a l Ha _ IH]; [done|].
  by rewrite filter_cons_False.
Qed.

Section list_sort_facts.
Context {A : Type} (keyf : A → option string).

#[local] Instance key_le_trans : Transitive (key_le keyf).
Proof.
  intros a b c. unfold key_le.
  destruct (keyf a), (keyf b), (keyf c); try done. apply transitivity.
Qed.

Lemma py_lt_Ok a b r :
  py_lt a b = Ok r → ∃ x y, a = Some x ∧ b = Some y ∧ r = String.ltb x y.
Proof. destruct a, b; simpl; intros [=]; eauto. Qed.

Lemma py_lt_Raise a b e : py_lt a b = Raise e → e = TypeError.
Proof. destruct a, b; simpl; by intros [=]. Qed.

Lemma insert_right_Permutation x s r :
  insert_right keyf x s = Ok r → r ≡ₚ x :: s.
Proof.
  revert r. induction s as [|y s IH]; intros r H; simpl in H.
  - by injection H as <-.
  - apply bind_Ok in H as (lt & _ & H). destruct lt.
    + by injection H as <-.
    + apply bind_Ok in H as (r' & Hr' & [= <-]).
      rewrite (IH _ Hr'). apply Permutation_swap.
Qed.

Lemma insert_right_sorted x s r :
  StronglySorted (key_le keyf) s → insert_right keyf x s = Ok r → StronglySorted (key_le keyf) r.
Proof.
  revert r. induction s as [|y s IH]; intros r Hs H; simpl in H.
  - injection H as <-. repeat constructor.
  - apply bind_Ok in H as (lt & Hlt & H).
    apply py_lt_Ok in Hlt as (kx & ky & Hx & Hy & ->).
    apply StronglySorted_cons in Hs as [Hy_le Hs].
    destruct (String.ltb kx ky) eqn:Hcmp.
    + injection H as <-. apply StronglySorted_cons. split.
      * assert (key_le keyf x y) as Hxy.
        { unfold key_le. rewrite Hx, Hy. by apply ltb_le. }
        constructor; [done|].
        eapply Forall_impl; [exact Hy_le|]. intros z Hz. by etrans.
      * apply StronglySorted_cons. done.
    + apply bind_Ok in H as (r' & Hr' & [= <-]).
      apply StronglySorted_cons. split; [|by eapply IH].
      rewrite (insert_right_Permutation _ _ _ Hr'). constructor; [|done].
      unfold key_le. rewrite Hx, Hy. by apply ltb_false_le.
Qed.

(** Stability of one insertion: among the elements with a given key, the
    new element comes last. *)
Lemma insert_right_filter (k : option string) x s r :
  StronglySorted (key_le keyf) s → insert_right keyf x s = Ok r →
  filter (λ a, keyf a = k) r = filter (λ a, keyf a = k) (s ++ [x]).
Proof.
  revert r. induction s as [|y s IH]; intros r Hs H; simpl in H.
  - by injection H as <-.
  - apply bind_Ok in H as (lt & Hlt & H).
    apply py_lt_Ok in Hlt as (kx & ky & Hx & Hy & ->).
    apply StronglySorted_cons in Hs as [Hy_le Hs].
    destruct (String.ltb kx ky) eqn:Hcmp.
    + injection H as <-. simpl.
      destruct (decide (keyf x = k)) as [Hk|Hk].
      * assert (filter (λ a, keyf a = k) (y :: s) = []) as Hnil.
        { apply filter_none. constructor.
          - rewrite <- Hk, Hx, Hy. intros [= ->]. by rewrite ltb_irrefl in Hcmp.
          - eapply Forall_impl; [exact Hy_le|]. intros z Hz.
            rewrite <- Hk, Hx. intros Heq. unfold key_le in Hz.
            rewrite Hy, Heq in Hz. by apply ltb_not_le in Hcmp. }
        rewrite filter_cons_True by done.
        change (y :: s ++ [x]) with ((y :: s) ++ [x]).
        rewrite filter_app, Hnil. simpl. by rewrite filter_cons_True.
      * rewrite filter_cons_False by done.
        change (y :: s ++ [x]) with ((y :: s) ++ [x]).
        rewrite filter_app. rewrite (filter_cons_False _ x) by done.
        by rewrite filter_nil, app_nil_r.
    + apply bind_Ok in H as (r' & Hr' & [= <-]).
      simpl. rewrite !filter_cons, (IH _ Hs Hr'). done.
Qed.

Lemma insert_right_total x s :
  is_Some (keyf x) → Forall (λ a, is_Some (keyf a)) s →
  ∃ r, insert_right keyf x s = Ok r.
Proof.
  intros [kx Hx]. induction 1 as [|y s [ky Hy] _ [r IH]]; simpl; [eauto|].
  rewrite Hx, Hy. simpl. destruct (String.ltb kx ky); [eauto|].
  rewrite IH. simpl. eauto.
Qed.

Lemma insert_right_Raise x s e : insert_right keyf x s = Raise e → e = TypeError.
Proof.
  induction s as [|y s IH]; simpl; [done|].
  intros [H|(lt & _ & H)]%bind_Raise; [by eapply py_lt_Raise|].
  destruct lt; [done|].
  apply bind_Raise in H as [H|(? & _ & H)]; [by apply IH | done].
Qed.

Lemma sort_loop_spec s rest r :
  StronglySorted (key_le keyf) s → sort_loop keyf s rest = Ok r →
  r ≡ₚ s ++ rest ∧ StronglySorted (key_le keyf) r ∧
  ∀ k, filter (λ a, keyf a = k) r = filter (λ a, keyf a = k) (s ++ rest).
Proof.
  revert s. induction rest as [|x rest IH]; intros s Hs H; simpl in H.
  - injection H as <-. by rewrite app_nil_r.
  - apply bind_Ok in H as (s' & Hs' & H).
    destruct (IH s' (insert_right_sorted _ _ _ Hs Hs') H) as (Hp & Hsorted & Hf).
    split_and!; [|done|].
    + rewrite Hp, (insert_right_Permutation _ _ _ Hs').
      simpl. apply Permutation_middle.
    + intros k. rewrite Hf, filter_app, (insert_right_filter k _ _ _ Hs Hs').
      by rewrite <- filter_app, <- (assoc_L (++)).
Qed.

Lemma sort_loop_Permutation s rest r :
  sort_loop keyf s rest = Ok r → r ≡ₚ s ++ rest.
Proof.
  revert s. induction rest as [|x rest IH]; intros s H; simpl in H.
  - injection H as <-. by rewrite app_nil_r.
  - apply bind_Ok in H as (s' & Hs' & H).
    rewrite (IH _ H), (insert_right_Permutation _ _ _ Hs').
    simpl. apply Permutation_middle.
Qed.

Lemma sort_loop_total s rest :
  Forall (λ a, is_Some (keyf a)) (s ++ rest) → ∃ r, sort_loop keyf s rest = Ok r.
Proof.
  revert s. induction rest as [|x rest IH]; intros s Hall; simpl; [eauto|].
  apply Forall_app in Hall as [Hs Hrest].
  apply Forall_cons in Hrest as [Hx Hrest].
  destruct (insert_right_total x s Hx Hs) as [s' Hs'].
  rewrite Hs'. simpl. apply IH. apply Forall_app. split; [|done].
  rewrite (insert_right_Permutation _ _ _ Hs'). by constructor.
Qed.

Lemma sort_loop_Raise s rest e : sort_loop keyf s rest = Raise e → e = TypeError.
Proof.
  revert s. induction rest as [|x rest IH]; intros s; simpl; [done|].
  intros [H|(? & _ & H)]%bind_Raise; [by eapply insert_right_Raise | by eapply IH].
Qed.

Lemma insert_right_compared x s r :
  compared keyf s → insert_right keyf x s = Ok r → compared keyf r.
Proof.
  intros Hs H. destruct s as [|y s].
  - injection H as <-. left. simpl. lia.
  - right. pose proof (insert_right_Permutation _ _ _ H) as ->.
    simpl in H. apply bind_Ok in H as (lt & Hlt & _).
    apply py_lt_Ok in Hlt as (kx & ky & Hx & Hy & _).
    constructor; [by rewrite Hx|].
    destruct Hs as [Hlen|Hall]; [|done].
    destruct s; [|simpl in Hlen; lia]. constructor; [by rewrite Hy|done].
Qed.

Lemma sort_loop_compared s rest r :
  compared keyf s → sort_loop keyf s rest = Ok r → compared keyf r.
Proof.
  revert s. induction rest as [|x rest IH]; intros s Hs H; simpl in H.
  - by injection H as <-.
  - apply bind_Ok in H as (s' & Hs' & H).
    eapply IH; [|done]. by eapply insert_right_compared.
Qed.

Lemma StronglySorted_reverse (R : relation A) (l : list A) :
  StronglySorted R l → StronglySorted (flip R) (reverse l).
Proof.
  induction 1 as [|x l _ IH Hx]; [constructor|].
  rewrite reverse_cons. apply StronglySorted_app. split_and!.
  - intros a b Ha ->%list_elem_of_singleton.
    rewrite Forall_forall in Hx. apply Hx. by apply elem_of_reverse.
  - done.
  - repeat constructor.
Qed.

Lemma StronglySorted_lookup (R : relation A) (l : list A) i j a b :
  StronglySorted R l → i < j → l !! i = Some a → l !! j = Some b → R a b.
Proof.
  intros Hl. revert i j. induction Hl as [|x l _ IH Hx]; intros i j Hij Hi Hj.
  - done.
  - destruct j as [|j]; [lia|]. destruct i as [|i]; simpl in *.
    + injection Hi as ->. rewrite Forall_forall in Hx.
      apply Hx. by eapply list_elem_of_lookup_2.
    + eapply (IH i j); [lia|done..].
Qed.

(** The sort the plugin asks for: descending, stable. *)
Lemma list_sort_reverse_spec (l : list A) :
  Forall (λ a, is_Some (keyf a)) l →
  ∃ out, list_sort keyf true l = Ok out ∧ out ≡ₚ l ∧
         StronglySorted (flip (key_le keyf)) out ∧
         ∀ k, filter (λ a, keyf a = k) out = filter (λ a, keyf a = k) l.
Proof.
  intros Hall. unfold list_sort.
  destruct (sort_loop_total [] (reverse l)) as [r Hr].
  { simpl. by rewrite reverse_Permutation. }
  destruct (sort_loop_spec [] (reverse l) r) as (Hp & Hs & Hf); [constructor|done|].
  rewrite Hr. simpl. eexists. split_and!; [done|..].
  - by rewrite reverse_Permutation, Hp, reverse_Permutation.
  - by apply StronglySorted_reverse.
  - intros k. rewrite filter_reverse, Hf. simpl.
    by rewrite filter_reverse, reverse_involutive.
Qed.

Lemma list_sort_Permutation reversed (l out : list A) :
  list_sort keyf reversed l = Ok out → out ≡ₚ l.
Proof.
  unfold list_sort. intros (r & Hr%sort_loop_Permutation & [= <-])%bind_Ok.
  simpl in Hr. destruct reversed; [|done].
  by rewrite reverse_Permutation, Hr, reverse_Permutation.
Qed.

Lemma list_sort_Raise reversed (l : list A) e :
  list_sort keyf reversed l = Raise e → e = TypeError.
Proof.
  unfold list_sort.
  intros [H|(? & _ & ?)]%bind_Raise; [by eapply sort_loop_Raise | done].
Qed.

(** Two or more elements, one of them without a string key: the sort
    raises. *)
Lemma list_sort_None reversed (l : list A) a :
  2 ≤ length l → a ∈ l → keyf a = None → list_sort keyf reversed l = Raise TypeError.
Proof.
  intros Hlen Ha Hnone.
  destruct (list_sort keyf reversed l) as [out|e] eqn:H.
  - exfalso. pose proof (list_sort_Permutation _ _ _ H) as Hp.
    unfold list_sort in H. apply bind_Ok in H as (r & Hr & [= <-]).
    assert (r ≡ₚ l) as Hrl.
    { destruct reversed; [|done]. by rewrite <- Hp, reverse_Permutation. }
    apply sort_loop_compared in Hr as [Hr|Hr]; [| |left; simpl; lia].
    + rewrite Hrl in Hr. lia.
    + rewrite Hrl, Forall_forall in Hr. specialize (Hr a Ha).
      rewrite Hnone in Hr. by destruct Hr.
  - by rewrite (list_sort_Raise _ _ _ H).
Qed.
End list_sort_facts.

(** ** The loop over the formatted entries *)

Lemma entries_get_Ok (bib : BibliographyData) k e :
  entries_get bib k = Ok e → (k, e) ∈ bib.
Proof.
  induction bib as [|[k' e'] bib IH]; simpl; [done|].
  destruct (String.eqb k k') eqn:Hk.
  - apply String.eqb_eq in Hk as ->. intros [= ->]. left.
  - intros H. right. by apply IH.
Qed.

Lemma entries_get_wf (bib : BibliographyData) k e :
  NoDup bib.*1 → (k, e) ∈ bib → entries_get bib k = Ok e.
Proof.
  induction bib as [|[k' e'] bib IH]; simpl; [by intros _ ?%elem_of_nil|].
  intros [Hk' Hnd]%NoDup_cons [[= -> ->]|Hin]%elem_of_cons.
  - by rewrite String.eqb_refl.
  - destruct (String.eqb k k') eqn:Hk; [|by apply IH].
    apply String.eqb_eq in Hk as ->. destruct Hk'.
    apply list_elem_of_fmap. by exists (k', e).
Qed.

Lemma values_wf (bib : BibliographyData) e :
  wf_bibdata bib → e ∈ values bib → (key e, e) ∈ bib.
Proof.
  intros [_ Hkeys] ([k e'] & -> & Hin)%list_elem_of_fmap.
  rewrite Forall_forall in Hkeys. specialize (Hkeys _ Hin). simpl in *.
  by rewrite Hkeys.
Qed.

Section plugin_facts.
Variable lib : Pybtex.

Lemma format_entry_key e fe : format_entry lib e = Ok fe → fe_key fe = key e.
Proof. unfold format_entry. by intros (? & _ & [= <-])%bind_Ok. Qed.

Lemma make_publication_record bib e fe p :
  wf_bibdata bib → e ∈ values bib →
  format_entry lib e = Ok fe → make_publication lib bib fe = Ok p → record_of lib e p.
Proof.
  intros Hwf Hin Hfe Hp. unfold make_publication in Hp.
  rewrite (format_entry_key _ _ Hfe) in Hp.
  rewrite (entries_get_wf bib (key e) e) in Hp by (first [by destruct Hwf | by apply values_wf]).
  simpl in Hp. apply bind_Ok in Hp as (text & Htext & [= <-]).
  unfold record_of; simpl. split_and!; eauto.
Qed.

Lemma make_publication_total bib e fe text :
  wf_bibdata bib → e ∈ values bib →
  format_entry lib e = Ok fe → render backend_symbols (fe_text fe) = Ok text →
  ∃ p, make_publication lib bib fe = Ok p.
Proof.
  intros Hwf Hin Hfe Htext. unfold make_publication.
  rewrite (format_entry_key _ _ Hfe).
  rewrite (entries_get_wf bib (key e) e) by (first [by destruct Hwf | by apply values_wf]).
  simpl. rewrite Htext. simpl. eauto.
Qed.

Lemma collect_records bib es ps :
  wf_bibdata bib → Forall (λ e, e ∈ values bib) es →
  collect lib bib es = Ok ps → Forall2 (record_of lib) es ps.
Proof.
  intros Hwf Hes. revert ps. induction Hes as [|e es He _ IH]; intros ps H; simpl in H.
  - injection H as <-. constructor.
  - apply bind_Ok in H as (fe & Hfe & H).
    apply bind_Ok in H as (p & Hp & H).
    apply bind_Ok in H as (ps' & Hps' & [= <-]).
    constructor; [by eapply make_publication_record | by apply IH].
Qed.

Lemma collect_total bib es :
  wf_bibdata bib → Forall (λ e, e ∈ values bib ∧ formats lib e) es →
  ∃ ps, collect lib bib es = Ok ps.
Proof.
  intros Hwf. induction 1 as [|e es [He (fe & text & Hfe & Htext)] _ [ps IH]]; simpl; [eauto|].
  rewrite Hfe. simpl.
  destruct (make_publication_total bib e fe text) as [p ->]; [done..|].
  simpl. rewrite IH. simpl. eauto.
Qed.

(** The list before the sort has one record per entry the style yields,
    in that order; the sort permutes it. *)
Lemma publications_of_records bib pubs :
  wf_bibdata bib → style_sort lib (values bib) ≡ₚ values bib →
  publications_of lib bib = Ok pubs →
  ∃ ps, collect lib bib (style_sort lib (values bib)) = Ok ps ∧
        Forall2 (record_of lib) (style_sort lib (values bib)) ps ∧
        list_sort itemgetter_1 true ps = Ok pubs ∧ pubs ≡ₚ ps.
Proof.
  intros Hwf Hperm H. unfold publications_of in H.
  apply bind_Ok in H as (ps & Hps & H). exists ps. split_and!; [done| |done|].
  - eapply collect_records; [done| |done].
    apply Forall_forall. intros e He. by rewrite <- Hperm.
  - by eapply list_sort_Permutation.
Qed.

Lemma Forall2_record_l es ps e :
  Forall2 (record_of lib) es ps → e ∈ es → ∃ p, p ∈ ps ∧ record_of lib e p.
Proof.
  intros H He. apply list_elem_of_lookup in He as [i Hi].
  destruct (Forall2_lookup_l _ _ _ _ _ H Hi) as (p & Hp & Hrec).
  exists p. split; [by eapply list_elem_of_lookup_2 | done].
Qed.

Lemma Forall2_record_r es ps p :
  Forall2 (record_of lib) es ps → p ∈ ps → ∃ e, e ∈ es ∧ record_of lib e p.
Proof.
  intros H Hp. apply list_elem_of_lookup in Hp as [i Hi].
  destruct (Forall2_lookup_r _ _ _ _ _ H Hi) as (e & He & Hrec).
  exists e. split; [by eapply list_elem_of_lookup_2 | done].
Qed.

Lemma Forall2_record_keys es ps :
  Forall2 (record_of lib) es ps → pub_key <$> ps = key <$> es.
Proof.
  induction 1 as [|e p es ps (Hk & _) _ IH]; [done|].
  rewrite !fmap_cons. by rewrite Hk, IH.
Qed.

End plugin_facts.

(** The call on a configured generator whose file parses. *)
Lemma add_publications_parsed env lib generator log refs_file bibdata_all :
  settings generator !! "PUBLICATIONS_SRC" = Some refs_file →
  pybtex env = Some lib →
  parse_file lib refs_file = Ok bibdata_all →
  add_publications env generator log =
    match publications_of lib bibdata_all with
    | Ok publications =>
        (set_context generator "publications" (CtxPublications publications), log, Return)
    | Raise x => (generator, log, Throw x)
    end.
Proof. intros Hs Hl Hp. unfold add_publications. by rewrite Hs, Hl, Hp. Qed.

(** ** Strings *)


Lemma append_cons (c : ascii) (s t : string) : String c s +:+ t = String c (s +:+ t).
Proof. done. Qed.

Lemma append_nil_r (s : string) : s +:+ "" = s.
Proof. induction s as [|c s IH]; [done|]. by rewrite append_cons, IH. Qed.

Lemma append_assoc (s t u : string) : (s +:+ t) +:+ u = s +:+ t +:+ u.
Proof. induction s as [|c s IH]; [done|]. by rewrite !append_cons, IH. Qed.




Lemma contains_middle (pre needle post : string) : contains needle (pre +:+ needle +:+ post).
Proof. by exists pre, post. Qed.

Lemma contains_suffix (pre needle : string) : contains needle (pre +:+ needle).
Proof. exists pre, "". by rewrite append_nil_r. Qed.

(** ** Runs on a parsed bibliography *)

Lemma keys_values (bib : BibliographyData) : wf_bibdata bib → key <$> values bib = bib.*1.
Proof.
  intros [_ Hkeys]. unfold values. rewrite <- list_fmap_compose.
  apply Forall_fmap_ext. eapply Forall_impl; [exact Hkeys|]. by intros [k e].
Qed.

Section runs.
Context (env : Env) (lib : Pybtex) (generator : Generator) (log : list LogRecord).
Context (refs_file : string) (bib : BibliographyData).
Hypothesis Hparsed : parsed env lib generator refs_file bib.

Lemma returns_inv g' log' :
  add_publications env generator log = (g', log', Return) →
  ∃ pubs, publications_of lib bib = Ok pubs ∧
          g' = set_context generator "publications" (CtxPublications pubs) ∧ log' = log.
Proof.
  destruct Hparsed as (Hs & Hl & Hp).
  rewrite (add_publications_parsed _ _ _ _ _ _ Hs Hl Hp).
  destruct (publications_of lib bib) as [pubs|x]; [|done].
  intros [= <- <-]. eauto.
Qed.

Lemma returns_intro pubs :
  publications_of lib bib = Ok pubs →
  add_publications env generator log =
    (set_context generator "publications" (CtxPublications pubs), log, Return).
Proof.
  destruct Hparsed as (Hs & Hl & Hp). intros H.
  by rewrite (add_publications_parsed _ _ _ _ _ _ Hs Hl Hp), H.
Qed.

Hypothesis Hwf : wf_bibdata bib.
Hypothesis Hperm : style_sort lib (values bib) ≡ₚ values bib.

(** Every entry formats and has a year: the call goes through. *)
Lemma publications_of_total :
  (∀ e, e ∈ values bib → formats lib e ∧ is_Some (fields e !! "year")) →
  ∃ ps pubs, collect lib bib (style_sort lib (values bib)) = Ok ps ∧
             Forall2 (record_of lib) (style_sort lib (values bib)) ps ∧
             publications_of lib bib = Ok pubs ∧ pubs ≡ₚ ps ∧
             StronglySorted (flip (key_le itemgetter_1)) pubs ∧
             ∀ y, filter (λ p, itemgetter_1 p = y) pubs = filter (λ p, itemgetter_1 p = y) ps.
Proof.
  intros Hall.
  assert (Forall (λ e, e ∈ values bib) (style_sort lib (values bib))) as Hin.
  { apply Forall_forall. intros e He. by rewrite <- Hperm. }
  destruct (collect_total lib bib (style_sort lib (values bib))) as [ps Hps]; [done|..].
  { eapply Forall_impl; [exact Hin|]. intros e He. split; [done|]. by apply Hall. }
  pose proof (collect_records lib bib _ _ Hwf Hin Hps) as Hrec.
  destruct (list_sort_reverse_spec itemgetter_1 ps) as (pubs & Hsort & Hp & Hs & Hf).
  { apply Forall_forall. intros p (e & He & Hr)%(Forall2_record_r lib _ _ _ Hrec).
    unfold itemgetter_1. destruct Hr as (_ & -> & _). apply Hall. by rewrite <- Hperm. }
  exists ps, pubs. split_and!; try done.
  unfold publications_of. by rewrite Hps.
Qed.

Lemma returns_total :
  (∀ e, e ∈ values bib → formats lib e ∧ is_Some (fields e !! "year")) →
  ∃ g', add_publications env generator log = (g', log, Return).
Proof.
  intros (ps & pubs & _ & _ & H & _)%publications_of_total.
  eexists. by apply returns_intro.
Qed.

(** What a returned list is made of. *)
Lemma returned_records pubs :
  publications_of lib bib = Ok pubs →
  length pubs = length bib ∧
  pub_key <$> pubs ≡ₚ bib.*1 ∧
  (∀ e, e ∈ values bib → ∃ p, p ∈ pubs ∧ record_of lib e p) ∧
  (∀ p, p ∈ pubs → ∃ e, e ∈ values bib ∧ record_of lib e p).
Proof.
  intros (ps & _ & Hrec & _ & Hp)%publications_of_records; [|done..].
  split_and!.
  - rewrite Hp, <- (Forall2_length _ _ _ Hrec), Hperm. apply length_fmap.
  - rewrite Hp, (Forall2_record_keys lib _ _ Hrec), Hperm. by rewrite keys_values.
  - intros e He. rewrite <- Hperm in He.
    destruct (Forall2_record_l lib _ _ _ Hrec He) as (p & Hin & Hr).
    exists p. by rewrite Hp.
  - intros p Hin. rewrite Hp in Hin.
    destruct (Forall2_record_r lib _ _ _ Hrec Hin) as (e & He & Hr).
    exists e. by rewrite <- Hperm.
Qed.
End runs.

(** ** The library instance on the example data *)

Lemma insert_by_key_Permutation x l : plain_style.insert_by_key x l ≡ₚ x :: l.
Proof.
  induction l as [|y l IH]; simpl; [done|].
  case_match; [done|].
  rewrite IH. apply Permutation_swap.
Qed.

Lemma sort_entries_Permutation l : plain_style.sort_entries l ≡ₚ l.
Proof.
  unfold plain_style.sort_entries.
  assert (∀ acc, fold_left (λ sorted x, plain_style.insert_by_key x sorted) l acc ≡ₚ l ++ acc)
    as H; [|by rewrite H, app_nil_r].
  induction l as [|x l IH]; intros acc; simpl; [done|].
  rewrite IH, insert_by_key_Permutation. symmetry. apply Permutation_middle.
Qed.

Lemma examples_parsed bib :
  parsed (examples.env bib) (examples.lib bib) (examples.configured "refs.bib") "refs.bib" bib.
Proof. done. Qed.

Lemma examples_wf es : NoDup (key <$> es) → wf_bibdata (examples.bib_of es).
Proof.
  intros Hnd. unfold examples.bib_of. split.
  - by rewrite <- list_fmap_compose.
  - apply Forall_fmap, Forall_true. done.
Qed.

Lemma examples_values es : values (examples.bib_of es) = es.
Proof.
  unfold values, examples.bib_of. rewrite <- list_fmap_compose.
  induction es as [|e es IH]; [done|]. rewrite fmap_cons. by rewrite IH.
Qed.

Lemma bib_articles_wf : wf_bibdata bib_articles.
Proof. apply examples_wf. apply (bool_decide_unpack _). by vm_compute. Qed.

Lemma bib_articles_formats e :
  e ∈ values bib_articles →
  formats (examples.lib bib_articles) e ∧ is_Some (fields e !! "year").
Proof.
  unfold bib_articles. rewrite examples_values.
  intros He. repeat (apply elem_of_cons in He as [->|He]);
    [..|by apply elem_of_nil in He];
    (split; [eexists _, _; split; vm_compute; reflexivity | eexists; vm_compute; reflexivity]).
Qed.

(** ** Year order and ties *)

Lemma Forall2_record_filter lib es ps (y : option string) :
  Forall2 (record_of lib) es ps →
  pub_key <$> filter (λ p, pub_year p = y) ps
  = key <$> filter (λ e, fields e !! "year" = y) es.
Proof.
  induction 1 as [|e p es ps (Hk & Hy & _) _ IH]; [done|].
  rewrite !filter_cons, Hy. case_decide; [|done].
  rewrite !fmap_cons. by rewrite Hk, IH.
Qed.

(** ** An entry without a year *)

(** In a database of two or more entries, an entry without a year makes
    the call raise, whatever the library: either an entry does not format,
    or the sort compares [None] with another key. *)
Lemma missing_year_raises env lib generator log refs_file bib e :
  parsed env lib generator refs_file bib →
  wf_bibdata bib →
  style_sort lib (values bib) ≡ₚ values bib →
  2 ≤ length bib → e ∈ values bib → fields e !! "year" = None →
  ∃ x, add_publications env generator log = (generator, log, Throw x).
Proof.
  intros (Hs & Hl & Hp) Hwf Hperm Hlen He Hnone.
  rewrite (add_publications_parsed _ _ _ _ _ _ Hs Hl Hp).
  destruct (publications_of lib bib) as [pubs|x] eqn:Hpubs; [exfalso|eauto].
  apply publications_of_records in Hpubs as (ps & _ & Hrec & Hsort & _); [|done..].
  rewrite <- Hperm in He.
  destruct (Forall2_record_l lib _ _ _ Hrec He) as (p & Hin & _ & Hy & _).
  rewrite (list_sort_None itemgetter_1 true ps p) in Hsort; [done| |done|].
  - rewrite <- (Forall2_length _ _ _ Hrec), Hperm. unfold values.
    by rewrite length_fmap.
  - unfold itemgetter_1. by rewrite Hy.
Qed.

(** The three entries of [bib_no_year] format; it is the sort that
    raises. *)
Lemma bib_no_year_collects :
  ∃ ps, collect (examples.lib bib_no_year) bib_no_year
          (style_sort (examples.lib bib_no_year) (values bib_no_year)) = Ok ps ∧
        pub_year <$> ps = [None; Some "2019"; Some "2021"] ∧
        list_sort itemgetter_1 true ps = Raise TypeError.
Proof.
  destruct (collect _ _ _) as [ps|x] eqn:H; vm_compute in H; [|discriminate].
  injection H as <-. eexists. split_and!; [done|by vm_compute..].
Qed.

(** ** The raw record *)


(** ** When a template formats *)

Create HintDb template discriminated.

Lemma succeeds_missing_only t e : succeeds t e → missing_only t e.
Proof. intros [r Hr] x Hx. congruence. Qed.

Lemma format_list_succeeds cs e :
  Forall (λ c, succeeds c e) cs → ∃ parts, format_list cs e = Ok parts.
Proof.
  induction 1 as [|c cs [r Hr] _ [parts IH]]; simpl; [eauto|].
  rewrite Hr, IH. simpl. eauto.
Qed.

Lemma format_list_missing_only cs e x :
  Forall (λ c, missing_only c e) cs → format_list cs e = Raise x →
  ∃ n k, x = FieldIsMissing n k.
Proof.
  induction 1 as [|c cs Hc _ IH]; simpl; [done|].
  intros [H|(r & _ & H)]%bind_Raise; [by apply Hc|].
  apply bind_Raise in H as [H|(? & _ & H)]; [by apply IH | done].
Qed.

Lemma lit_succeeds s e : succeeds (lit s) e.
Proof. by eexists. Qed.

Lemma Symbol_succeeds s e : succeeds (Symbol s) e.
Proof. by eexists. Qed.

Lemma field_with_succeeds f n e : is_Some (fields e !! n) → succeeds (field_with f n) e.
Proof. intros [v Hv]. unfold succeeds, field_with. rewrite Hv. eauto. Qed.

Lemma field_with_missing_only f n e : missing_only (field_with f n) e.
Proof. intros x. unfold field_with. destruct (fields e !! n); [done|]. intros [= <-]. eauto. Qed.

Lemma join_with_succeeds sep sep2 last_sep cs e :
  Forall (λ c, succeeds c e) cs → succeeds (join_with sep sep2 last_sep cs) e.
Proof.
  intros [parts H]%format_list_succeeds. unfold succeeds, join_with. rewrite H. simpl. eauto.
Qed.

Lemma join_with_missing_only sep sep2 last_sep cs e :
  Forall (λ c, missing_only c e) cs → missing_only (join_with sep sep2 last_sep cs) e.
Proof.
  intros Hcs x. unfold join_with.
  intros [H|(? & _ & H)]%bind_Raise; [by eapply format_list_missing_only | done].
Qed.

Lemma sentence_succeeds cs e : Forall (λ c, succeeds c e) cs → succeeds (sentence cs) e.
Proof.
  intros [r H]%(join_with_succeeds (RString ", ") (RString ", ") (RString ", ")).
  unfold succeeds, sentence, join_sep. rewrite H. simpl. eauto.
Qed.

Lemma sentence_missing_only cs e :
  Forall (λ c, missing_only c e) cs → missing_only (sentence cs) e.
Proof.
  intros Hcs x. unfold sentence, join_sep.
  intros [H|(? & _ & H)]%bind_Raise; [by eapply join_with_missing_only | done].
Qed.

Lemma tag_succeeds n cs e : Forall (λ c, succeeds c e) cs → succeeds (tag n cs) e.
Proof.
  intros [parts H]%format_list_succeeds. unfold succeeds, tag. rewrite H. simpl. eauto.
Qed.

Lemma tag_missing_only n cs e :
  Forall (λ c, missing_only c e) cs → missing_only (tag n cs) e.
Proof.
  intros Hcs x. unfold tag.
  intros [H|(? & _ & H)]%bind_Raise; [by eapply format_list_missing_only | done].
Qed.

(** [optional] absorbs what its children can raise. *)
Lemma optional_succeeds cs e :
  Forall (λ c, missing_only c e) cs → succeeds (optional cs) e.
Proof.
  intros Hcs. unfold succeeds, optional.
  destruct (format_list cs e) as [parts|x] eqn:H; [eauto|].
  destruct (format_list_missing_only _ _ _ Hcs H) as (n & k & ->). eauto.
Qed.

Lemma first_of_succeeds cs e : Forall (λ c, succeeds c e) cs → succeeds (first_of cs) e.
Proof.
  induction 1 as [|c cs [r Hr] _ IH]; simpl; [by eexists|].
  unfold succeeds. simpl. rewrite Hr. simpl. destruct (rt_nonempty r); [eauto|done].
Qed.

Lemma first_of_missing_only cs e :
  Forall (λ c, missing_only c e) cs → missing_only (first_of cs) e.
Proof.
  induction 1 as [|c cs Hc _ IH]; intros x; simpl; [done|].
  intros [H|(r & _ & H)]%bind_Raise; [by apply Hc|].
  destruct (rt_nonempty r); [done | by apply IH].
Qed.

Lemma names_succeeds lib role sep sep2 last_sep e :
  is_Some (persons e !! role) → succeeds (unsrt.names lib role sep sep2 last_sep) e.
Proof.
  intros [ps Hps]. unfold unsrt.names. unfold succeeds. rewrite Hps.
  apply join_with_succeeds. apply Forall_fmap, Forall_true. intros p. by eexists.
Qed.

Lemma names_missing_only lib role sep sep2 last_sep e :
  missing_only (unsrt.names lib role sep sep2 last_sep) e.
Proof.
  unfold unsrt.names. intros x. destruct (persons e !! role) as [ps|] eqn:Hps.
  - apply join_with_missing_only. apply Forall_fmap, Forall_true. intros p y. done.
  - intros [= <-]. eauto.
Qed.

Lemma together_node_missing_only lib cs e :
  Forall (λ c, missing_only c e) cs → missing_only (unsrt.together_node lib cs) e.
Proof.
  intros Hcs x. unfold unsrt.together_node.
  intros [H|(? & _ & H)]%bind_Raise; [by eapply format_list_missing_only | done].
Qed.

Lemma web_refs_succeeds lib e e' : succeeds (web_refs lib e) e'.
Proof. by eexists. Qed.

#[export] Hint Resolve lit_succeeds Symbol_succeeds field_with_succeeds
  field_with_missing_only join_with_succeeds join_with_missing_only
  sentence_succeeds sentence_missing_only tag_succeeds tag_missing_only
  optional_succeeds first_of_succeeds first_of_missing_only names_succeeds
  names_missing_only together_node_missing_only web_refs_succeeds
  Forall_cons_2 Forall_nil_2 : template.

#[export] Hint Unfold field optional_field join join_sep words toplevel
  unsrt.pages unsrt.date unsrt.format_names volume_and_pages : template.

Ltac template :=
  repeat first
    [ progress autounfold with template
    | match goal with
      | |- Forall _ (_ :: _) => apply Forall_cons_2
      | |- Forall _ [] => apply Forall_nil_2
      | |- succeeds (if ?b then _ else _) _ => destruct b
      | |- missing_only (if ?b then _ else _) _ => destruct b
      end
    | solve [eauto 2 with template]
    | apply join_with_succeeds | apply sentence_succeeds | apply tag_succeeds
    | apply optional_succeeds | apply first_of_succeeds
    | apply join_with_missing_only | apply sentence_missing_only
    | apply tag_missing_only | apply first_of_missing_only
    | apply together_node_missing_only
    | apply succeeds_missing_only ].

Lemma format_editor_missing_only lib e e' : missing_only (unsrt.format_editor lib e false) e'.
Proof. unfold unsrt.format_editor. destruct (persons e !! "editor"); template. Qed.

Lemma format_volume_and_series_succeeds lib e e' :
  succeeds (unsrt.format_volume_and_series lib e) e'.
Proof. unfold unsrt.format_volume_and_series. template. Qed.

Lemma format_address_organization_publisher_date_succeeds e e' :
  is_Some (fields e' !! "year") →
  succeeds (unsrt.format_address_organization_publisher_date e) e'.
Proof. intros Hy. unfold unsrt.format_address_organization_publisher_date. template. Qed.

(** The three templates of [CustomStyle] format an entry that has the
    fields they require, whatever other fields it has or lacks. *)
Lemma format_article_succeeds lib e :
  is_Some (fields e !! "title") → is_Some (persons e !! "author") →
  is_Some (fields e !! "journal") → is_Some (fields e !! "year") →
  ∃ text, format_article lib e = Ok text.
Proof.
  intros Ht Ha Hj Hy. change (succeeds (λ e', format_article lib e) e).
  unfold format_article, format_bold_title. template.
Qed.

Lemma format_inproceedings_succeeds lib e :
  is_Some (fields e !! "title") → is_Some (persons e !! "author") →
  is_Some (fields e !! "booktitle") → is_Some (fields e !! "year") →
  ∃ text, format_inproceedings lib e = Ok text.
Proof.
  intros Ht Ha Hb Hy. change (succeeds (λ e', format_inproceedings lib e) e).
  unfold format_inproceedings, format_bold_title, unsrt.format_btitle.
  pose proof (format_editor_missing_only lib e e).
  pose proof (format_volume_and_series_succeeds lib e e).
  pose proof (format_address_organization_publisher_date_succeeds e e Hy).
  template.
Qed.

Lemma format_techreport_succeeds lib e :
  is_Some (fields e !! "title") → is_Some (persons e !! "author") →
  is_Some (fields e !! "institution") → is_Some (fields e !! "year") →
  ∃ text, format_techreport lib e = Ok text.
Proof.
  intros Ht Ha Hi Hy. change (succeeds (λ e', format_techreport lib e) e).
  unfold format_techreport, format_bold_title. template.
Qed.

(** ** Optional fields *)

Lemma drop_optional_absent e n : n ∈ optional_fields → fields (drop_optional e) !! n = None.
Proof.
  unfold optional_fields. simpl. intros Hn.
  repeat (apply elem_of_cons in Hn as [->|Hn];
          [by repeat first [apply lookup_delete_eq | rewrite lookup_delete_ne by done]|]).
  by apply elem_of_nil in Hn.
Qed.

Lemma drop_optional_required e : has_required e → has_required (drop_optional e).
Proof.
  unfold has_required. simpl.
  by rewrite !lookup_delete_ne by done.
Qed.

Lemma format_entry_required lib e :
  has_required e → ∃ fe, format_entry lib e = Ok fe.
Proof.
  intros (Ht & Ha & Hy & [[Htype Hv]|[[Htype Hv]|[Htype Hv]]]);
    unfold format_entry; rewrite Htype; simpl.
  - destruct (format_article_succeeds lib e) as [text ->]; [done..|]. simpl. eauto.
  - destruct (format_inproceedings_succeeds lib e) as [text ->]; [done..|]. simpl. eauto.
  - destruct (format_techreport_succeeds lib e) as [text ->]; [done..|]. simpl. eauto.
Qed.

Lemma bib_articles_required e : e ∈ values bib_articles → has_required e.
Proof.
  unfold bib_articles. rewrite examples_values.
  intros He. repeat (apply elem_of_cons in He as [->|He]);
    [..|by apply elem_of_nil in He];
    (split_and!; [by eexists; vm_compute..|left; split; [done|by eexists; vm_compute]]).
Qed.

(** ** Rendering the article template *)

Lemma render_Text_cons sy p l :
  render sy (RText (p :: l)) = (a ← render sy p; b ← render sy (RText l); Ok (a +:+ b)).
Proof. reflexivity. Qed.
Lemma render_dashify p : render backend_symbols (unsrt.dashify p) = Ok (html_pages p).
Proof.
  unfold unsrt.dashify, html_pages. generalize (unsrt.dash_split p). intros l.
  induction l as [|a l IH]; [done|].
  destruct l as [|b l].
  - simpl. by rewrite append_nil_r.
  - change (rt_join (RSymbol "ndash") (RString <$> a :: b :: l))
      with (RString a :: RSymbol "ndash" :: rt_join (RSymbol "ndash") (RString <$> b :: l)).
    rewrite !render_Text_cons, IH. done.
Qed.
















Lemma contains_app_r (x s t : string) : contains x t → contains x (s +:+ t).
Proof.
  intros (pre & post & ->). exists (s +:+ pre), post. by rewrite !append_assoc.
Qed.


(** * The claims *)

(** C1 (as amended). On a configured generator whose file parses to a
    database in which every entry formats and has a year, add_publications
    stores a list sorted by year descending: a record with a greater year
    comes before a record with a smaller one.  The sort is stable with
    respect to the order in which the style yields the formatted entries:
    the records of one year keep that order, which is the parse order only
    when the style does not reorder the entries. *)
Theorem sorted_by_year_descending env lib generator log refs_file bib :
  parsed env lib generator refs_file bib →
  wf_bibdata bib →
  style_sort lib (values bib) ≡ₚ values bib →
  (∀ e, e ∈ values bib → formats lib e ∧ is_Some (fields e !! "year")) →
  ∃ pubs,
    add_publications env generator log =
      (set_context generator "publications" (CtxPublications pubs), log, Return) ∧
    (∀ i j a b ya yb,
       pubs !! i = Some a → pubs !! j = Some b →
       pub_year a = Some ya → pub_year b = Some yb →
       String.ltb yb ya = true → i < j) ∧
    (∀ y, pub_key <$> filter (λ p, pub_year p = Some y) pubs
          = key <$> filter (λ e, fields e !! "year" = Some y) (style_sort lib (values bib))).
Proof.
  intros Hparsed Hwf Hperm Hall.
  destruct (publications_of_total _ _ Hwf Hperm Hall)
    as (ps & pubs & _ & Hrec & Hpubs & _ & Hsorted & Hstable).
  exists pubs. split_and!.
  - by eapply returns_intro.
  - intros i j a b ya yb Hi Hj Ha Hb Hlt.
    destruct (decide (i < j)) as [|Hge]; [done|]. exfalso.
    destruct (decide (i = j)) as [->|Hne].
    + rewrite Hi in Hj. injection Hj as ->. rewrite Ha in Hb. injection Hb as ->.
      by rewrite ltb_irrefl in Hlt.
    + assert (j < i) as Hji by lia.
      pose proof (StronglySorted_lookup _ _ _ _ _ _ Hsorted Hji Hj Hi) as Hle.
      unfold flip, key_le, itemgetter_1 in Hle. rewrite Ha, Hb in Hle.
      by apply ltb_not_le in Hlt.
  - intros y. unfold itemgetter_1 in Hstable. rewrite Hstable.
    by apply (Forall2_record_filter lib).
Qed.

Lemma sorted_by_year_descending_witness :
  ∃ pubs,
    add_publications (examples.env bib_articles) (examples.configured "refs.bib") [] =
      (set_context (examples.configured "refs.bib") "publications" (CtxPublications pubs),
       [], Return) ∧
    (∀ i j a b ya yb,
       pubs !! i = Some a → pubs !! j = Some b →
       pub_year a = Some ya → pub_year b = Some yb →
       String.ltb yb ya = true → i < j) ∧
    (∀ y, pub_key <$> filter (λ p, pub_year p = Some y) pubs
          = key <$> filter (λ e, fields e !! "year" = Some y)
                      (style_sort (examples.lib bib_articles) (values bib_articles))).
Proof.
  apply (sorted_by_year_descending (examples.env bib_articles) (examples.lib bib_articles)
           (examples.configured "refs.bib") [] "refs.bib" bib_articles).
  - apply examples_parsed.
  - apply bib_articles_wf.
  - apply sort_entries_Permutation.
  - apply bib_articles_formats.
Defined.

(** C1 as stated fails: in [bib_articles] every entry has a year and the
    entries of 2020 are parsed in the order k1, k2, but the style yields
    them ordered by author, year and title, and the stored list has them
    in the order k2, k1. *)
Lemma parse_order_counterexample :
  (∀ e, e ∈ values bib_articles → is_Some (fields e !! "year")) ∧
  key <$> filter (λ e, fields e !! "year" = Some "2020") (values bib_articles)
    = ["k1"; "k2"] ∧
  ∃ pubs,
    add_publications (examples.env bib_articles) (examples.configured "refs.bib") [] =
      (set_context (examples.configured "refs.bib") "publications" (CtxPublications pubs),
       [], Return) ∧
    pub_key <$> pubs = ["k3"; "k2"; "k1"] ∧
    pub_key <$> filter (λ p, pub_year p = Some "2020") pubs = ["k2"; "k1"].
Proof.
  split_and!.
  - intros e He. by apply bib_articles_formats.
  - by vm_compute.
  - destruct (publications_of (examples.lib bib_articles) bib_articles) as [pubs|x] eqn:H;
      vm_compute in H; [|discriminate].
    exists pubs. split_and!.
    + by apply (returns_intro _ _ _ _ _ _ (examples_parsed bib_articles)).
    + injection H as <-. by vm_compute.
    + injection H as <-. by vm_compute.
Qed.

(** C2. The database [bib_no_year] has entries with the years 2021 and
    2019 and a third entry, of type misc, without a year.  All three
    format, and the sort then compares the key [None] with a string:
    add_publications raises TypeError and stores nothing. *)
Theorem absent_year_raises_TypeError :
  add_publications (examples.env bib_no_year) (examples.configured "refs.bib") [] =
    (examples.configured "refs.bib", [], Throw TypeError).
Proof. by vm_compute. Qed.



(** C4. Take a configured generator whose file parses to a database in
    which every entry has the fields its template requires (title,
    authors, year, and journal, booktitle or institution by type), and a
    backend that renders the formatted texts.  Then add_publications
    returns, whether the fields pdf, slides, poster, note, number, editor
    and series are present or not; it also formats every entry once these
    fields are taken away.  In the record of an entry the slots pdf, slides
    and poster hold the entry's field of that name, and None when the field
    is missing. *)
Theorem optional_fields_never_fail env lib generator log refs_file bib :
  parsed env lib generator refs_file bib →
  wf_bibdata bib →
  style_sort lib (values bib) ≡ₚ values bib →
  (∀ e, e ∈ values bib → has_required e) →
  (∀ e fe, e ∈ values bib → format_entry lib e = Ok fe →
           ∃ text, render backend_symbols (fe_text fe) = Ok text) →
  (∃ pubs,
     add_publications env generator log =
       (set_context generator "publications" (CtxPublications pubs), log, Return) ∧
     ∀ e, e ∈ values bib →
          ∃ p, p ∈ pubs ∧ pub_key p = key e ∧
               pub_pdf p = fields e !! "pdf" ∧
               pub_slides p = fields e !! "slides" ∧
               pub_poster p = fields e !! "poster" ∧
               (fields e !! "pdf" = None → pub_pdf p = None) ∧
               (fields e !! "slides" = None → pub_slides p = None) ∧
               (fields e !! "poster" = None → pub_poster p = None)) ∧
  (∀ e, e ∈ values bib →
        (∀ n, n ∈ optional_fields → fields (drop_optional e) !! n = None) ∧
        persons (drop_optional e) !! "editor" = None ∧
        ∃ fe, format_entry lib (drop_optional e) = Ok fe).
Proof.
  intros Hparsed Hwf Hperm Hreq Hrender. split.
  - destruct (publications_of_total lib bib Hwf Hperm) as (ps & pubs & _ & _ & Hpubs & _).
    { intros e He. split; [|by destruct (Hreq e He) as (_ & _ & ? & _)].
      destruct (format_entry_required lib e (Hreq e He)) as [fe Hfe].
      destruct (Hrender e fe He Hfe) as [text Htext]. by exists fe, text. }
    exists pubs. split; [by eapply returns_intro|].
    destruct (returned_records _ _ Hwf Hperm _ Hpubs) as (_ & _ & Hent & _).
    intros e (p & Hp & Hk & _ & _ & _ & Hpdf & Hslides & Hposter & _)%Hent.
    exists p. split_and!; try done; intros Hnone; congruence.
  - intros e He. split_and!.
    + intros n. apply drop_optional_absent.
    + apply lookup_delete_eq.
    + apply format_entry_required, drop_optional_required. by apply Hreq.
Qed.

Lemma optional_fields_never_fail_witness :
  (∃ pubs,
     add_publications (examples.env bib_articles) (examples.configured "refs.bib") [] =
       (set_context (examples.configured "refs.bib") "publications" (CtxPublications pubs),
        [], Return) ∧
     ∀ e, e ∈ values bib_articles →
          ∃ p, p ∈ pubs ∧ pub_key p = key e ∧
               pub_pdf p = fields e !! "pdf" ∧
               pub_slides p = fields e !! "slides" ∧
               pub_poster p = fields e !! "poster" ∧
               (fields e !! "pdf" = None → pub_pdf p = None) ∧
               (fields e !! "slides" = None → pub_slides p = None) ∧
               (fields e !! "poster" = None → pub_poster p = None)) ∧
  (∀ e, e ∈ values bib_articles →
        (∀ n, n ∈ optional_fields → fields (drop_optional e) !! n = None) ∧
        persons (drop_optional e) !! "editor" = None ∧
        ∃ fe, format_entry (examples.lib bib_articles) (drop_optional e) = Ok fe).
Proof.
  apply (optional_fields_never_fail (examples.env bib_articles) (examples.lib bib_articles)
           (examples.configured "refs.bib") [] "refs.bib" bib_articles).
  - apply examples_parsed.
  - apply bib_articles_wf.
  - apply sort_entries_Permutation.
  - apply bib_articles_required.
  - intros e fe He Hfe.
    destruct (bib_articles_formats e He) as [(fe' & text & Hfe' & Htext) _].
    exists text. congruence.
Defined.

(** C5. When the settings have no key 'PUBLICATIONS_SRC', add_publications
    returns with the generator, its context included, exactly as it was
    and with nothing logged; a context without the key 'publications'
    still has no such key afterwards. *)
Theorem unconfigured_is_noop env generator log :
  settings generator !! "PUBLICATIONS_SRC" = None →
  add_publications env generator log = (generator, log, Return) ∧
  (context generator !! "publications" = None →
   context (add_publications env generator log).1.1 !! "publications" = None).
Proof.
  intros H. unfold add_publications. rewrite H. done.
Qed.

Lemma unconfigured_is_noop_witness :
  add_publications (examples.env []) examples.unconfigured [] =
    (examples.unconfigured, [], Return) ∧
  (context examples.unconfigured !! "publications" = None →
   context (add_publications (examples.env []) examples.unconfigured []).1.1
     !! "publications" = None).
Proof. apply unconfigured_is_noop. reflexivity. Defined.

(** C6 (as amended). When the file parses to no entry, add_publications
    binds 'publications' to the empty list: the context gets that key,
    every other key, the settings and the log stay as they were, and the
    call returns normally. *)
Theorem empty_bibliography_sets_empty_list env lib generator log refs_file :
  parsed env lib generator refs_file [] →
  style_sort lib [] = [] →
  add_publications env generator log =
    (set_context generator "publications" (CtxPublications []), log, Return) ∧
  context (add_publications env generator log).1.1 !! "publications"
    = Some (CtxPublications []) ∧
  ∀ k, k ≠ "publications" →
       context (add_publications env generator log).1.1 !! k = context generator !! k.
Proof.
  intros Hparsed Hsort.
  assert (publications_of lib [] = Ok []) as Hpubs.
  { unfold publications_of. simpl. by rewrite Hsort. }
  rewrite (returns_intro _ _ _ _ _ _ Hparsed _ Hpubs). simpl. split_and!; [done|..].
  - apply lookup_insert_eq.
  - intros k Hk. by apply lookup_insert_ne.
Qed.

Lemma empty_bibliography_sets_empty_list_witness :
  add_publications (examples.env []) (examples.configured "refs.bib") [] =
    (set_context (examples.configured "refs.bib") "publications" (CtxPublications []),
     [], Return) ∧
  context (add_publications (examples.env []) (examples.configured "refs.bib") []).1.1
    !! "publications" = Some (CtxPublications []) ∧
  ∀ k, k ≠ "publications" →
       context (add_publications (examples.env []) (examples.configured "refs.bib") []).1.1
         !! k = context (examples.configured "refs.bib") !! k.
Proof.
  apply (empty_bibliography_sets_empty_list (examples.env []) (examples.lib [])
           (examples.configured "refs.bib") [] "refs.bib").
  - apply examples_parsed.
  - reflexivity.
Defined.

(** C6 as stated fails: on a configured generator whose file parses to no
    entry the context is modified, the key 'publications' being absent
    before the call and bound to the empty list after it. *)
Lemma empty_bibliography_counterexample :
  context (examples.configured "refs.bib") !! "publications" = None ∧
  context (add_publications (examples.env []) (examples.configured "refs.bib") []).1.1
    !! "publications" = Some (CtxPublications []) ∧
  context (add_publications (examples.env []) (examples.configured "refs.bib") []).1.1
    ≠ context (examples.configured "refs.bib").
Proof.
  split_and!; [done..|].
  intros H. apply (f_equal (.!! "publications")) in H. done.
Qed.

(** C7. When the parser rejects the file with a PybtexError,
    add_publications logs one warning that contains the path and the
    parser's message, leaves the generator as it was and returns
    normally. *)
Theorem parse_failure_is_logged env lib generator log refs_file msg :
  settings generator !! "PUBLICATIONS_SRC" = Some refs_file →
  pybtex env = Some lib →
  parse_file lib refs_file = Raise (PybtexError msg) →
  ∃ w, add_publications env generator log = (generator, log ++ [Warning w], Return) ∧
       contains refs_file w ∧ contains msg w.
Proof.
  intros Hs Hl Hp. exists (parse_warning refs_file msg).
  unfold add_publications. rewrite Hs, Hl, Hp. split_and!; [done|..].
  - apply contains_middle.
  - unfold parse_warning. rewrite <- !append_assoc. apply contains_suffix.
Qed.

Lemma parse_failure_is_logged_witness :
  ∃ w, add_publications (examples.env []) (examples.configured "broken.bib") [] =
         (examples.configured "broken.bib", [] ++ [Warning w], Return) ∧
       contains "broken.bib" w ∧ contains "syntax error at line 1" w.
Proof.
  apply (parse_failure_is_logged (examples.env []) (examples.lib [])); reflexivity.
Defined.






(** C10. Whenever add_publications returns, the eighth slot of the record
    of every entry is the value of the entry's field named 'type', and
    None when the entry has no such field; the entry's type tag is not
    used, so an article without a 'type' field gets None.  The call does
    return when every entry formats and has a year. *)
Theorem entrytype_slot_is_type_field env lib generator log refs_file bib :
  parsed env lib generator refs_file bib →
  wf_bibdata bib →
  style_sort lib (values bib) ≡ₚ values bib →
  (∀ g' log', add_publications env generator log = (g', log', Return) →
     ∃ pubs, g' = set_context generator "publications" (CtxPublications pubs) ∧
       (∀ e, e ∈ values bib →
             ∃ p, p ∈ pubs ∧ pub_key p = key e ∧ pub_entrytype p = fields e !! "type") ∧
       (∀ p, p ∈ pubs →
             ∃ e, e ∈ values bib ∧ pub_key p = key e ∧
                  pub_entrytype p = fields e !! "type" ∧
                  (entry_type e = "article" → fields e !! "type" = None →
                   pub_entrytype p = None))) ∧
  ((∀ e, e ∈ values bib → formats lib e ∧ is_Some (fields e !! "year")) →
   ∃ g', add_publications env generator log = (g', log, Return)).
Proof.
  intros Hparsed Hwf Hperm. split; [|by eapply returns_total].
  intros g' log' (pubs & Hpubs & -> & ->)%(returns_inv _ _ _ _ _ _ Hparsed).
  destruct (returned_records _ _ Hwf Hperm _ Hpubs) as (_ & _ & Hent & Hrec).
  exists pubs. split_and!; [done| |].
  - intros e (p & Hp & Hk & _ & _ & _ & _ & _ & _ & Ht)%Hent. eauto.
  - intros p (e & He & Hk & _ & _ & _ & _ & _ & _ & Ht)%Hrec.
    exists e. split_and!; [done..|]. intros _ Hnone. by rewrite Ht.
Qed.

Lemma entrytype_slot_is_type_field_witness :
  (∀ g' log',
     add_publications (examples.env bib_articles) (examples.configured "refs.bib") []
       = (g', log', Return) →
     ∃ pubs, g' = set_context (examples.configured "refs.bib") "publications"
                    (CtxPublications pubs) ∧
       (∀ e, e ∈ values bib_articles →
             ∃ p, p ∈ pubs ∧ pub_key p = key e ∧ pub_entrytype p = fields e !! "type") ∧
       (∀ p, p ∈ pubs →
             ∃ e, e ∈ values bib_articles ∧ pub_key p = key e ∧
                  pub_entrytype p = fields e !! "type" ∧
                  (entry_type e = "article" → fields e !! "type" = None →
                   pub_entrytype p = None))) ∧
  ∃ g', add_publications (examples.env bib_articles) (examples.configured "refs.bib") []
          = (g', [], Return).
Proof.
  destruct (entrytype_slot_is_type_field (examples.env bib_articles)
           (examples.lib bib_articles) (examples.configured "refs.bib") [] "refs.bib"
           bib_articles) as [Hreturned Hreturns].
  - apply examples_parsed.
  - apply bib_articles_wf.
  - apply sort_entries_Permutation.
  - split; [exact Hreturned | apply Hreturns, bib_articles_formats].
Defined.

(** * Further properties of [add_publications] *)

(** ** What a call leaves alone *)

(** X1. Whatever the settings, the library and the file, a call leaves
    the settings and every key of the context other than 'publications'
    as they were, and it adds at most one record to the log. *)
Theorem add_publications_frame env generator log :
  settings (add_publications env generator log).1.1 = settings generator ∧
  (∀ k, k ≠ "publications" →
        context (add_publications env generator log).1.1 !! k = context generator !! k) ∧
  ((add_publications env generator log).1.2 = log ∨
   ∃ w, (add_publications env generator log).1.2 = log ++ [Warning w]).
Proof.
  unfold add_publications.
  destruct (settings generator !! "PUBLICATIONS_SRC") as [refs_file|]; [|by eauto].
  destruct (pybtex env) as [lib|]; [|by eauto 6].
  destruct (parse_file lib refs_file) as [bib|[]]; simpl; eauto 6.
  destruct (publications_of lib bib); simpl; [|by eauto].
  split_and!; [done| |by left].
  intros k Hk. by apply lookup_insert_ne.
Qed.

(** X2. A call that raises has changed nothing: the generator and the log
    are those it was given, so a failure while formatting, rendering or
    sorting never leaves a partial list in the context. *)
Theorem raise_leaves_generator env generator log g' log' x :
  add_publications env generator log = (g', log', Throw x) →
  g' = generator ∧ log' = log.
Proof.
  unfold add_publications.
  destruct (settings generator !! "PUBLICATIONS_SRC") as [refs_file|]; [|done].
  destruct (pybtex env) as [lib|]; [|done].
  destruct (parse_file lib refs_file) as [bib|[]]; try (by intros [= <- <-]).
  destruct (publications_of lib bib); by intros [= <- <-].
Qed.

Lemma raise_leaves_generator_witness :
  examples.configured "refs.bib" = examples.configured "refs.bib" ∧
  ([] : list LogRecord) = [].
Proof.
  apply (raise_leaves_generator (examples.env bib_no_year) (examples.configured "refs.bib")
           [] _ _ TypeError).
  by vm_compute.
Defined.

(** ** Warnings and exceptions *)

(** X3. On a configured generator the log changes exactly when pybtex
    cannot be imported or the parser raises PybtexError.  When the import
    fails the one record added is the warning about the dependency, the
    generator is as it was and the call returns; the file is not read. *)
Theorem warning_only_on_import_or_parse_failure env generator log refs_file :
  settings generator !! "PUBLICATIONS_SRC" = Some refs_file →
  ((add_publications env generator log).1.2 ≠ log ↔
   pybtex env = None ∨
   ∃ lib msg, pybtex env = Some lib ∧ parse_file lib refs_file = Raise (PybtexError msg)) ∧
  (pybtex env = None →
   add_publications env generator log =
     (generator, log ++ [Warning "`pelican_bibtex` failed to load dependency `pybtex`"],
      Return)).
Proof.
  intros Hs. unfold add_publications. rewrite Hs.
  assert (∀ w, log ++ [Warning w] ≠ log) as Hne.
  { intros w H. apply (f_equal length) in H. rewrite length_app in H. simpl in H. lia. }
  destruct (pybtex env) as [lib|]; [|by split; [split; [left|intros _; apply Hne]|]].
  split; [|done].
  destruct (parse_file lib refs_file) as [bib|x] eqn:Hp.
  - destruct (publications_of lib bib); simpl;
      (split; [done|intros [?|(? & ? & [= <-] & ?)]; congruence]).
  - destruct x; simpl;
      try (split; [done|intros [?|(? & ? & [= <-] & ?)]; congruence]).
    split; [right; eauto|intros _; apply Hne].
Qed.

Lemma warning_only_on_import_or_parse_failure_witness :
  add_publications env_without_pybtex (examples.configured "refs.bib") [] =
    (examples.configured "refs.bib",
     [] ++ [Warning "`pelican_bibtex` failed to load dependency `pybtex`"], Return).
Proof.
  apply (warning_only_on_import_or_parse_failure env_without_pybtex
           (examples.configured "refs.bib") [] "refs.bib"); reflexivity.
Defined.

(** X4. The call absorbs PybtexError and nothing else: any other
    exception of the parser (a file that cannot be opened, say) leaves the
    call as it is, with nothing logged and the generator untouched. *)
Theorem other_parser_exception_propagates env lib generator log refs_file x :
  settings generator !! "PUBLICATIONS_SRC" = Some refs_file →
  pybtex env = Some lib →
  parse_file lib refs_file = Raise x →
  (∀ msg, x ≠ PybtexError msg) →
  add_publications env generator log = (generator, log, Throw x).
Proof.
  intros Hs Hl Hp Hx. unfold add_publications. rewrite Hs, Hl, Hp.
  destruct x; try done. by destruct (Hx msg).
Qed.

Lemma other_parser_exception_propagates_witness :
  add_publications (examples.env bib_articles) (examples.configured "missing.bib") [] =
    (examples.configured "missing.bib", [], Throw (OSError "missing.bib")).
Proof.
  apply (other_parser_exception_propagates (examples.env bib_articles)
           (examples.lib bib_articles) (examples.configured "missing.bib") []
           "missing.bib" (OSError "missing.bib")); [reflexivity..|done].
Defined.

(** ** Calling again *)

(** X5. The list is assigned, not appended: whatever the context held
    under 'publications', a second call on the generator the first one
    left (with any log) leaves the same generator and ends the same way. *)
Theorem second_call_changes_nothing env generator log log2 :
  (add_publications env (add_publications env generator log).1.1 log2).1.1
    = (add_publications env generator log).1.1 ∧
  (add_publications env (add_publications env generator log).1.1 log2).2
    = (add_publications env generator log).2.
Proof.
  unfold add_publications at 2 4 5.
  destruct (settings generator !! "PUBLICATIONS_SRC") as [refs_file|] eqn:Hs;
    [|simpl; unfold add_publications; by rewrite Hs].
  destruct (pybtex env) as [lib|] eqn:Hl;
    [|simpl; unfold add_publications; by rewrite Hs, Hl].
  destruct (parse_file lib refs_file) as [bib|x] eqn:Hp.
  - destruct (publications_of lib bib) as [pubs|x] eqn:Hpubs; simpl.
    + unfold add_publications. simpl. rewrite Hs, Hl, Hp, Hpubs. simpl.
      split; [|done]. unfold set_context. simpl. by rewrite insert_insert_eq.
    + unfold add_publications. by rewrite Hs, Hl, Hp, Hpubs.
  - destruct x; simpl; unfold add_publications; by rewrite Hs, Hl, Hp.
Qed.

(** ** One entry, and one entry that fails *)

Lemma list_sort_singleton {A} (keyf : A → option string) (p : A) :
  list_sort keyf true [p] = Ok [p].
Proof. reflexivity. Qed.

Lemma collect_Raise_in lib bib es e x :
  e ∈ es → format_entry lib e = Raise x → ∃ y, collect lib bib es = Raise y.
Proof.
  intros He Hx. induction es as [|e' es IH]; [by apply elem_of_nil in He|].
  simpl. apply elem_of_cons in He as [<-|He].
  - rewrite Hx. simpl. eauto.
  - destruct (format_entry lib e') as [fe|y]; simpl; [|eauto].
    destruct (make_publication lib bib fe) as [p|y]; simpl; [|eauto].
    destruct (IH He) as [y ->]. simpl. eauto.
Qed.

(** X6. A database of one entry is never compared with anything by the
    sort: if its entry formats, the call stores the one record of that
    entry, with or without a year. *)
Theorem single_entry_is_stored env lib generator log refs_file e :
  parsed env lib generator refs_file [(key e, e)] →
  style_sort lib [e] ≡ₚ [e] →
  formats lib e →
  ∃ p, add_publications env generator log =
         (set_context generator "publications" (CtxPublications [p]), log, Return) ∧
       record_of lib e p.
Proof.
  intros (Hs & Hl & Hp) Hperm%Permutation_singleton_r Hf.
  assert (wf_bibdata [(key e, e)]) as Hwf.
  { split; [apply NoDup_singleton | by apply Forall_singleton]. }
  rewrite (add_publications_parsed _ _ _ _ _ _ Hs Hl Hp).
  unfold publications_of. change (values [(key e, e)]) with [e]. rewrite Hperm.
  destruct (collect_total lib [(key e, e)] [e] Hwf) as [ps Hps].
  { apply Forall_singleton. split; [by apply list_elem_of_singleton | done]. }
  assert (Forall2 (record_of lib) [e] ps) as Hrec.
  { apply (collect_records lib _ [e] ps Hwf); [|done].
    by apply Forall_singleton, list_elem_of_singleton. }
  apply Forall2_cons_inv_l in Hrec as (p & ps' & Hr & ->%Forall2_nil_inv_l & ->).
  rewrite Hps. cbn [mbind result_bind]. rewrite list_sort_singleton. eauto.
Qed.

Lemma single_entry_is_stored_witness :
  ∃ p, add_publications (examples.env bib_single) (examples.configured "refs.bib") [] =
         (set_context (examples.configured "refs.bib") "publications" (CtxPublications [p]),
          [], Return) ∧
       record_of (examples.lib bib_single) (examples.untitled "k1") p.
Proof.
  apply (single_entry_is_stored (examples.env bib_single) (examples.lib bib_single)
           (examples.configured "refs.bib") [] "refs.bib" (examples.untitled "k1")).
  - apply examples_parsed.
  - apply sort_entries_Permutation.
  - eexists _, _. split; vm_compute; reflexivity.
Defined.

(** X7. There are no partial results: if one entry of the database does
    not format, the call raises and stores nothing, however many other
    entries format. *)
Theorem one_failing_entry_fails_the_call env lib generator log refs_file bib e x :
  parsed env lib generator refs_file bib →
  style_sort lib (values bib) ≡ₚ values bib →
  e ∈ values bib →
  format_entry lib e = Raise x →
  ∃ y, add_publications env generator log = (generator, log, Throw y).
Proof.
  intros (Hs & Hl & Hp) Hperm He Hx.
  rewrite (add_publications_parsed _ _ _ _ _ _ Hs Hl Hp).
  rewrite <- Hperm in He.
  destruct (collect_Raise_in lib bib _ e x He Hx) as [y Hy].
  unfold publications_of. rewrite Hy. simpl. eauto.
Qed.

Lemma one_failing_entry_fails_the_call_witness :
  ∃ y, add_publications (examples.env bib_no_journal) (examples.configured "refs.bib") [] =
         (examples.configured "refs.bib", [], Throw y).
Proof.
  apply (one_failing_entry_fails_the_call (examples.env bib_no_journal)
           (examples.lib bib_no_journal) (examples.configured "refs.bib") [] "refs.bib"
           bib_no_journal
           (examples.entry "article" "k2" [("title", "Apple"); ("year", "2019")])
           (FieldIsMissing "journal" "k2")).
  - apply examples_parsed.
  - apply sort_entries_Permutation.
  - unfold bib_no_journal. rewrite examples_values. set_solver.
  - by vm_compute.
Defined.

(** ** Which field a template misses *)

Lemma format_list_raises cs e x : raises_first cs e x → format_list cs e = Raise x.
Proof.
  induction cs as [|c cs IH]; simpl; [done|].
  intros [->|[[r Hr] H]]; [done|]. rewrite Hr. simpl. by rewrite IH.
Qed.

Lemma join_with_raises sep sep2 last_sep cs e x :
  raises_first cs e x → join_with sep sep2 last_sep cs e = Raise x.
Proof. intros H%format_list_raises. unfold join_with. by rewrite H. Qed.

Lemma sentence_raises cs e x : raises_first cs e x → sentence cs e = Raise x.
Proof.
  intros H. unfold sentence, join_sep.
  by rewrite (join_with_raises _ _ _ _ _ _ H).
Qed.

Lemma tag_raises n cs e x : raises_first cs e x → tag n cs e = Raise x.
Proof. intros H%format_list_raises. unfold tag. by rewrite H. Qed.

Lemma field_with_raises f n e :
  fields e !! n = None → field_with f n e = Raise (FieldIsMissing n (key e)).
Proof. intros H. unfold field_with. by rewrite H. Qed.

Lemma names_raises lib role sep sep2 last_sep e :
  persons e !! role = None →
  unsrt.names lib role sep sep2 last_sep e = Raise (FieldIsMissing role (key e)).
Proof. intros H. unfold unsrt.names. by rewrite H. Qed.

Lemma date_raises e :
  fields e !! "year" = None → unsrt.date e = Raise (FieldIsMissing "year" (key e)).
Proof.
  intros Hy. unfold unsrt.date, words, join_sep. apply join_with_raises.
  right. split; [by template|]. left. by apply field_with_raises.
Qed.

Lemma bold_title_raises e0 e :
  fields e !! "title" = None →
  format_bold_title e0 "title" true e = Raise (FieldIsMissing "title" (key e)).
Proof.
  intros Ht. unfold format_bold_title. apply sentence_raises. left.
  apply tag_raises. left. by apply field_with_raises.
Qed.

Lemma author_raises lib e :
  persons e !! "author" = None →
  unsrt.format_names lib "author" true e = Raise (FieldIsMissing "author" (key e)).
Proof.
  intros Ha. unfold unsrt.format_names. apply sentence_raises. left.
  by apply names_raises.
Qed.

(** Without a year the first candidate of the clause is absorbed and the
    second raises. *)
Lemma format_address_organization_publisher_date_raises e0 e :
  fields e !! "year" = None →
  unsrt.format_address_organization_publisher_date e0 e
  = Raise (FieldIsMissing "year" (key e)).
Proof.
  intros Hy. unfold unsrt.format_address_organization_publisher_date.
  cbn [first_of].
  assert (∃ n, format_list
            [join_sep (RString " ")
               [sentence [field "address"; unsrt.date];
                sentence [optional_field "organization"; optional_field "publisher"]]] e
          = Raise (FieldIsMissing n (key e))) as [n Hn].
  { destruct (fields e !! "address") as [a|] eqn:Ha.
    - exists "year". apply format_list_raises. left. apply join_with_raises. left.
      apply sentence_raises. right. split; [by template|]. left. by apply date_raises.
    - exists "address". apply format_list_raises. left. apply join_with_raises. left.
      apply sentence_raises. left. by apply field_with_raises. }
  unfold optional at 1. rewrite Hn. cbn [mbind result_bind rt_nonempty existsb].
  rewrite (sentence_raises _ e (FieldIsMissing "year" (key e))); [done|].
  right. split; [by template|]. right. split; [by template|]. left. by apply date_raises.
Qed.

Ltac passes := right; split; [by template|].

Lemma format_article_first_missing lib e n :
  entry_type e = "article" → first_missing e = Some n →
  format_article lib e = Raise (FieldIsMissing n (key e)).
Proof.
  intros Htype. unfold first_missing, venue_field. rewrite Htype. simpl.
  unfold format_article, toplevel, join_sep. cbv zeta.
  destruct (fields e !! "title") as [t|] eqn:Ht;
    [|intros [= <-]; apply join_with_raises; left; by apply bold_title_raises].
  assert (is_Some (fields e !! "title")) as Ht' by eauto.
  assert (succeeds (format_bold_title e "title" true) e) as Hbt
    by (unfold format_bold_title; template).
  destruct (persons e !! "author") as [a|] eqn:Ha;
    [|intros [= <-]; apply join_with_raises; passes; passes; left; by apply author_raises].
  assert (is_Some (persons e !! "author")) as Ha' by eauto.
  assert (succeeds (unsrt.format_names lib "author" true) e) as Hn by template.
  destruct (fields e !! "journal") as [j|] eqn:Hj.
  - assert (is_Some (fields e !! "journal")) as Hj' by eauto.
    destruct (fields e !! "year") as [y|] eqn:Hy; [done|]. intros [= <-].
    apply join_with_raises. passes. passes. passes. passes. left.
    apply sentence_raises. passes. passes. left. by apply date_raises.
  - intros [= <-].
    apply join_with_raises. passes. passes. passes. passes. left.
    apply sentence_raises. left. apply tag_raises. left. by apply field_with_raises.
Qed.

Lemma format_inproceedings_first_missing lib e n :
  entry_type e = "inproceedings" → first_missing e = Some n →
  format_inproceedings lib e = Raise (FieldIsMissing n (key e)).
Proof.
  intros Htype. unfold first_missing, venue_field. rewrite Htype. simpl.
  unfold format_inproceedings, toplevel, join_sep. cbv zeta.
  destruct (fields e !! "title") as [t|] eqn:Ht;
    [|intros [= <-]; apply join_with_raises; left; by apply bold_title_raises].
  assert (is_Some (fields e !! "title")) as Ht' by eauto.
  assert (succeeds (format_bold_title e "title" true) e) as Hbt
    by (unfold format_bold_title; template).
  destruct (persons e !! "author") as [a|] eqn:Ha;
    [|intros [= <-]; apply join_with_raises; passes; passes; left;
      apply sentence_raises; left; by apply author_raises].
  assert (is_Some (persons e !! "author")) as Ha' by eauto.
  assert (succeeds (sentence [unsrt.format_names lib "author" true]) e) as Hn by template.
  pose proof (format_editor_missing_only lib e e) as Hed.
  pose proof (format_volume_and_series_succeeds lib e e) as Hvs.
  destruct (fields e !! "booktitle") as [b|] eqn:Hb.
  - assert (is_Some (fields e !! "booktitle")) as Hb' by eauto.
    assert (succeeds (sentence [optional [unsrt.format_editor lib e false];
                                unsrt.format_btitle e "booktitle" false;
                                unsrt.format_volume_and_series lib e]) e) as Hin
      by (unfold unsrt.format_btitle; template).
    destruct (fields e !! "year") as [y|] eqn:Hy; [done|]. intros [= <-].
    apply join_with_raises. passes. passes. passes. passes. left.
    apply join_with_raises. passes. passes. left.
    by apply format_address_organization_publisher_date_raises.
  - intros [= <-].
    apply join_with_raises. passes. passes. passes. passes. left.
    apply join_with_raises. passes. left.
    apply sentence_raises. passes. left. unfold unsrt.format_btitle.
    apply tag_raises. left. by apply field_with_raises.
Qed.

Lemma format_techreport_first_missing lib e n :
  entry_type e = "techreport" → first_missing e = Some n →
  format_techreport lib e = Raise (FieldIsMissing n (key e)).
Proof.
  intros Htype. unfold first_missing, venue_field. rewrite Htype. simpl.
  unfold format_techreport, toplevel, join_sep. cbv zeta.
  destruct (fields e !! "title") as [t|] eqn:Ht;
    [|intros [= <-]; apply join_with_raises; left; by apply bold_title_raises].
  assert (is_Some (fields e !! "title")) as Ht' by eauto.
  assert (succeeds (format_bold_title e "title" true) e) as Hbt
    by (unfold format_bold_title; template).
  destruct (persons e !! "author") as [a|] eqn:Ha;
    [|intros [= <-]; apply join_with_raises; passes; passes; left;
      apply sentence_raises; left; by apply author_raises].
  assert (is_Some (persons e !! "author")) as Ha' by eauto.
  assert (succeeds (sentence [unsrt.format_names lib "author" true]) e) as Hn by template.
  destruct (fields e !! "institution") as [i|] eqn:Hi.
  - assert (is_Some (fields e !! "institution")) as Hi' by eauto.
    destruct (fields e !! "year") as [y|] eqn:Hy; [done|]. intros [= <-].
    apply join_with_raises. passes. passes. passes. passes. left.
    apply sentence_raises. passes. passes. passes. left. by apply date_raises.
  - intros [= <-].
    apply join_with_raises. passes. passes. passes. passes. left.
    apply sentence_raises. passes. left. by apply field_with_raises.
Qed.

Lemma format_entry_first_missing lib e n :
  own_type e → first_missing e = Some n →
  format_entry lib e = Raise (FieldIsMissing n (key e)).
Proof.
  intros [Htype|[Htype|Htype]] Hn; unfold format_entry; rewrite Htype; simpl.
  - by rewrite (format_article_first_missing lib e n).
  - by rewrite (format_inproceedings_first_missing lib e n).
  - by rewrite (format_techreport_first_missing lib e n).
Qed.

Lemma first_missing_None e :
  own_type e → first_missing e = None ↔ has_required e.
Proof.
  intros Hown. unfold first_missing, has_required, venue_field. split.
  - destruct (fields e !! "title") as [t|]; [|done].
    destruct (persons e !! "author") as [a|]; [|done].
    destruct Hown as [Htype|[Htype|Htype]]; rewrite Htype; simpl;
      (destruct (fields e !! _) as [v|] eqn:Hv; [|done]);
      (destruct (fields e !! "year") as [y|]; [|done]); intros _;
      split_and!; eauto 6.
  - intros ([t Ht] & [a Ha] & [y Hy] & Hv). rewrite Ht, Ha, Hy.
    destruct Hv as [[Htype [v Hv]]|[[Htype [v Hv]]|[Htype [v Hv]]]];
      rewrite Htype; simpl; by rewrite Hv.
Qed.

(** X8. For an article, an inproceedings or a techreport the style
    formats the entry exactly when it has a title, authors, the venue
    field of its type and a year; otherwise it raises FieldIsMissing for
    the entry's key and the first of these, in this order, that the entry
    lacks.  No other field and no other exception is involved. *)
Theorem format_entry_outcome lib e :
  own_type e →
  match first_missing e with
  | Some n => format_entry lib e = Raise (FieldIsMissing n (key e))
  | None => has_required e ∧ ∃ fe, format_entry lib e = Ok fe
  end.
Proof.
  intros Hown. destruct (first_missing e) as [n|] eqn:Hn.
  - by apply format_entry_first_missing.
  - apply first_missing_None in Hn; [|done]. split; [done|].
    by apply format_entry_required.
Qed.

Lemma format_entry_outcome_witness :
  format_entry (examples.lib bib_no_journal)
    (examples.entry "article" "k2" [("title", "Apple"); ("year", "2019")])
  = Raise (FieldIsMissing "journal" "k2").
Proof.
  apply (format_entry_outcome (examples.lib bib_no_journal)
           (examples.entry "article" "k2" [("title", "Apple"); ("year", "2019")])).
  by left.
Defined.

(** ** What the backend renders *)

Lemma render_Tag sy n l :
  render sy (RTag n l) = (s ← render sy (RText l); Ok (format_tag n s)).
Proof. reflexivity. Qed.

Lemma render_HRef sy u l :
  render sy (RHRef u l) = (s ← render sy (RText l); Ok (format_href u s)).
Proof. reflexivity. Qed.

Lemma renders_String s : renders (RString s).
Proof. by eexists. Qed.

Lemma renders_Symbol n : is_Some (backend_symbols !! n) → renders (RSymbol n).
Proof. intros [s Hs]. exists s. simpl. by rewrite Hs. Qed.

Lemma renders_Text l : Forall renders l → renders (RText l).
Proof.
  induction 1 as [|t l [s Hs] _ [s' IH]]; [by exists ""|].
  exists (s +:+ s'). by rewrite render_Text_cons, Hs, IH.
Qed.

Lemma renders_Tag n l : Forall renders l → renders (RTag n l).
Proof.
  intros [s Hs]%renders_Text. exists (format_tag n s). by rewrite render_Tag, Hs.
Qed.

Lemma renders_HRef u l : Forall renders l → renders (RHRef u l).
Proof.
  intros [s Hs]%renders_Text. exists (format_href u s). by rewrite render_HRef, Hs.
Qed.

Lemma renders_add_period t : renders t → renders (add_period t).
Proof.
  intros Ht. unfold add_period. case_match; [|done].
  apply renders_Text. repeat constructor; [done|apply renders_String].
Qed.

Lemma renders_rt_join sep l : renders sep → Forall renders l → Forall renders (rt_join sep l).
Proof.
  intros Hsep. induction 1 as [|t l Ht Hl IH]; [constructor|].
  destruct l as [|u l]; simpl; [by repeat constructor|].
  by repeat constructor.
Qed.

Lemma Forall_removelast {A} (P : A → Prop) l : Forall P l → Forall P (removelast l).
Proof.
  induction 1 as [|a l Ha Hl IH]; [constructor|].
  destruct l as [|b l]; simpl; [constructor|]. by constructor.
Qed.

Lemma Forall_last {A} (P : A → Prop) l d : Forall P l → P d → P (List.last l d).
Proof.
  intros Hl Hd. induction Hl as [|a l Ha Hl IH]; [done|].
  destruct l as [|b l]; simpl; [done|]. apply IH.
Qed.

Lemma Forall_List_filter {A} (P : A → Prop) f l : Forall P l → Forall P (List.filter f l).
Proof.
  induction 1 as [|a l Ha Hl IH]; simpl; [constructor|].
  destruct (f a); [by constructor|done].
Qed.

Lemma renders_join_parts sep sep2 last_sep parts :
  renders sep → renders sep2 → renders last_sep → Forall renders parts →
  renders (join_parts sep sep2 last_sep parts).
Proof.
  intros Hsep Hsep2 Hlast Hparts.
  destruct parts as [|a [|b [|c l]]]; unfold join_parts.
  - by apply renders_Text.
  - by apply renders_Text.
  - by apply renders_Text, renders_rt_join.
  - apply renders_Text, renders_rt_join; [done|].
    repeat constructor.
    + by apply renders_Text, renders_rt_join, Forall_removelast.
    + apply Forall_last; [done|]. by apply renders_Text.
Qed.

Lemma format_list_renders cs e parts :
  Forall (λ c, renders_out c e) cs → format_list cs e = Ok parts → Forall renders parts.
Proof.
  intros Hcs. revert parts. induction Hcs as [|c cs Hc _ IH]; intros parts; simpl.
  - intros [= <-]. constructor.
  - intros (t & Ht & (ts & Hts & [= <-])%bind_Ok)%bind_Ok. constructor; [by apply Hc|by apply IH].
Qed.

Lemma lit_renders s e : renders_out (lit s) e.
Proof. intros r [= <-]. apply renders_String. Qed.

Lemma Symbol_renders n e : is_Some (backend_symbols !! n) → renders_out (Symbol n) e.
Proof. intros Hn r [= <-]. by apply renders_Symbol. Qed.

Lemma field_with_renders f n e : (∀ v, renders (f v)) → renders_out (field_with f n) e.
Proof. intros Hf r. unfold field_with. destruct (fields e !! n); [|done]. by intros [= <-]. Qed.

Lemma join_with_renders sep sep2 last_sep cs e :
  renders sep → renders sep2 → renders last_sep →
  Forall (λ c, renders_out c e) cs → renders_out (join_with sep sep2 last_sep cs) e.
Proof.
  intros Hsep Hsep2 Hlast Hcs r. unfold join_with.
  intros (parts & Hparts & [= <-])%bind_Ok.
  apply renders_join_parts; [done..|].
  apply Forall_List_filter. by eapply format_list_renders.
Qed.

Lemma sentence_renders cs e : Forall (λ c, renders_out c e) cs → renders_out (sentence cs) e.
Proof.
  intros Hcs r. unfold sentence, join_sep. intros (t & Ht & [= <-])%bind_Ok.
  apply renders_add_period.
  eapply join_with_renders; [apply renders_String..|exact Hcs|exact Ht].
Qed.

Lemma tag_renders n cs e : Forall (λ c, renders_out c e) cs → renders_out (tag n cs) e.
Proof.
  intros Hcs r. unfold tag. intros (parts & Hparts & [= <-])%bind_Ok.
  apply renders_Tag. by eapply format_list_renders.
Qed.

Lemma href_renders url cs e : Forall (λ c, renders_out c e) cs → renders_out (href url cs) e.
Proof.
  intros Hcs r. unfold href.
  intros (u & Hu & (parts & Hparts & [= <-])%bind_Ok)%bind_Ok.
  apply renders_HRef. by eapply format_list_renders.
Qed.

Lemma optional_renders cs e : Forall (λ c, renders_out c e) cs → renders_out (optional cs) e.
Proof.
  intros Hcs r. unfold optional.
  destruct (format_list cs e) as [parts|x] eqn:Hparts.
  - intros [= <-]. apply renders_Text. by eapply format_list_renders.
  - destruct x; try done. intros [= <-]. by apply renders_Text.
Qed.

Lemma first_of_renders cs e : Forall (λ c, renders_out c e) cs → renders_out (first_of cs) e.
Proof.
  induction 1 as [|c cs Hc _ IH]; intros r; simpl.
  - intros [= <-]. by apply renders_Text.
  - intros (t & Ht & H)%bind_Ok. destruct (rt_nonempty t).
    + injection H as <-. by apply Hc.
    + by apply IH.
Qed.

Lemma dashify_renders v : renders (unsrt.dashify v).
Proof. eexists. apply render_dashify. Qed.

Section lib_renders.
Context (lib : Pybtex) (Hlib : lib_renders lib).

Lemma names_renders role sep sep2 last_sep e :
  renders_out (unsrt.names lib role sep sep2 last_sep) e.
Proof.
  intros r. unfold unsrt.names. destruct (persons e !! role) as [ps|]; [|done].
  apply join_with_renders; [apply renders_String..|].
  apply Forall_fmap, Forall_true. intros p t [= <-]. apply Hlib.
Qed.

Lemma together_node_renders cs e :
  Forall (λ c, renders_out c e) cs → renders_out (unsrt.together_node lib cs) e.
Proof.
  intros Hcs r. unfold unsrt.together_node. intros (parts & Hparts & [= <-])%bind_Ok.
  apply Hlib, Forall_List_filter. by eapply format_list_renders.
Qed.

Lemma web_refs_renders e e' : renders_out (web_refs lib e) e'.
Proof. intros r [= <-]. apply Hlib. Qed.
End lib_renders.

Ltac rendering :=
  repeat first
    [ progress autounfold with template
    | match goal with
      | |- Forall _ (_ :: _) => apply Forall_cons_2
      | |- Forall _ [] => apply Forall_nil_2
      | |- renders_out (if ?b then _ else _) _ => destruct b
      | |- renders (RString _) => apply renders_String
      | |- renders (RSymbol _) => apply renders_Symbol; by eexists
      | |- is_Some (backend_symbols !! _) => by eexists
      | |- ∀ v, renders _ => intros ?
      end
    | apply lit_renders | apply Symbol_renders | apply dashify_renders
    | apply field_with_renders
    | apply join_with_renders | apply sentence_renders | apply tag_renders
    | apply href_renders | apply optional_renders | apply first_of_renders
    | apply names_renders; assumption
    | apply together_node_renders; [assumption|]
    | apply web_refs_renders; assumption ].

Section templates_render.
Context (lib : Pybtex) (Hlib : lib_renders lib).

Lemma format_article_renders e : renders_out (λ _, format_article lib e) e.
Proof.
  unfold format_article, format_bold_title. cbv zeta. rendering.
Qed.

Lemma format_inproceedings_renders e : renders_out (λ _, format_inproceedings lib e) e.
Proof.
  unfold format_inproceedings, format_bold_title, unsrt.format_btitle, unsrt.format_editor,
    unsrt.format_volume_and_series, unsrt.format_address_organization_publisher_date.
  cbv zeta. destruct (persons e !! "editor"); rendering.
Qed.

Lemma format_techreport_renders e : renders_out (λ _, format_techreport lib e) e.
Proof.
  unfold format_techreport, format_bold_title. cbv zeta. rendering.
Qed.

Lemma format_entry_renders e fe :
  own_type e → format_entry lib e = Ok fe → renders (fe_text fe).
Proof.
  intros [Htype|[Htype|Htype]]; unfold format_entry; rewrite Htype; simpl;
    intros (text & Htext & [= <-])%bind_Ok; simpl.
  - by apply (format_article_renders e).
  - by apply (format_inproceedings_renders e).
  - by apply (format_techreport_renders e).
Qed.
End templates_render.

(** The library instance renders. *)
Lemma plain_style_renders files from_text to_text :
  lib_renders (plain_style.lib files from_text to_text).
Proof.
  split_and!; simpl.
  - intros p. apply renders_String.
  - intros l Hl. unfold plain_style.tie_parts.
    apply renders_Text, renders_rt_join; [|done]. apply renders_Symbol. by eexists.
  - intros e. unfold plain_style.links.
    match goal with |- renders (match ?t e with _ => _ end) =>
      assert (renders_out t e) as H; [|destruct (t e) as [r|x] eqn:Ht; [by apply H|by apply renders_Text]]
    end.
    unfold plain_style.format_url, plain_style.format_link. rendering.
Qed.

(** X9. The backend never fails on what the three templates of
    CustomStyle produce: once the style has formatted an article, an
    inproceedings or a techreport, the text is rendered (no symbol is
    unknown to the backend after the update of its table), provided the
    texts the library supplies for names, ties and links are. *)
Theorem formatted_text_renders lib e fe :
  lib_renders lib → own_type e →
  format_entry lib e = Ok fe →
  ∃ text, render backend_symbols (fe_text fe) = Ok text.
Proof. intros Hlib Hown Hfe. by apply (format_entry_renders lib Hlib e fe). Qed.

Lemma formatted_text_renders_witness :
  ∃ text, render backend_symbols (fe_text foo_formatted) = Ok text.
Proof.
  apply (formatted_text_renders (examples.lib []) examples.foo foo_formatted).
  - apply plain_style_renders.
  - by left.
  - by vm_compute.
Defined.

(** ** Databases of the three entry types *)

Section own_types.
Context (lib : Pybtex) (Hlib : lib_renders lib).
Context (bib : BibliographyData) (Hwf : wf_bibdata bib).
Hypothesis Hown : ∀ e, e ∈ values bib → own_type e.

Lemma format_entry_Ok_required e fe :
  e ∈ values bib → format_entry lib e = Ok fe → has_required e.
Proof.
  intros He Hfe. apply first_missing_None; [by apply Hown|].
  destruct (first_missing e) as [n|] eqn:Hn; [|done].
  rewrite (format_entry_first_missing lib e n) in Hfe; [done|by apply Hown|done].
Qed.

Lemma has_required_formats e : e ∈ values bib → has_required e → formats lib e.
Proof.
  intros He [fe Hfe]%(format_entry_required lib).
  destruct (format_entry_renders lib Hlib e fe) as [text Htext]; [by apply Hown|done|].
  by exists fe, text.
Qed.

(** The loop raises only what the style raises on an entry. *)
Lemma collect_Raise_inv es x :
  Forall (λ e, e ∈ values bib) es → collect lib bib es = Raise x →
  ∃ e, e ∈ es ∧ format_entry lib e = Raise x.
Proof.
  induction 1 as [|e es He _ IH]; simpl; [done|].
  destruct (format_entry lib e) as [fe|y] eqn:Hfe; simpl.
  - destruct (format_entry_renders lib Hlib e fe) as [text Htext]; [by apply Hown|done|].
    destruct (make_publication_total lib bib e fe text) as [p ->]; [done..|]. simpl.
    intros [H|(ps & _ & H)]%bind_Raise; [|done].
    destruct (IH H) as (e' & He' & Hx). exists e'. split; [by right|done].
  - intros [= <-]. exists e. split; [by left|done].
Qed.
End own_types.

(** X10. A database of articles, inproceedings and techreports is stored
    exactly when every entry has a title, authors, the venue field of its
    type and a year.  Otherwise the call raises FieldIsMissing, for the
    key of an entry of the database and the first required field that
    entry lacks: the lookup by key, the rendering and the sort never raise
    on such a database (the library's texts for names, ties and links
    being rendered, and the style yielding every entry once). *)
Theorem own_types_stored_or_field_missing env lib generator log refs_file bib :
  parsed env lib generator refs_file bib →
  wf_bibdata bib →
  style_sort lib (values bib) ≡ₚ values bib →
  lib_renders lib →
  (∀ e, e ∈ values bib → own_type e) →
  ((∃ g', add_publications env generator log = (g', log, Return)) ↔
   ∀ e, e ∈ values bib → has_required e) ∧
  (∀ g' log' x, add_publications env generator log = (g', log', Throw x) →
     ∃ e n, e ∈ values bib ∧ first_missing e = Some n ∧ x = FieldIsMissing n (key e)).
Proof.
  intros Hparsed Hwf Hperm Hlib Hown.
  assert (Forall (λ e, e ∈ values bib) (style_sort lib (values bib))) as Hin.
  { apply Forall_forall. intros e He. by rewrite <- Hperm. }
  split; [split|].
  - intros [g' Hret] e He.
    destruct (returns_inv env lib generator log refs_file bib Hparsed g' log Hret)
      as (pubs & Hpubs & _).
    destruct (returned_records lib bib Hwf Hperm pubs Hpubs) as (_ & _ & Hrec & _).
    destruct (Hrec e He) as (p & _ & _ & _ & (fe & Hfe & _) & _).
    by eapply format_entry_Ok_required.
  - intros Hall.
    apply (returns_total env lib generator log refs_file bib Hparsed Hwf Hperm).
    intros e He. split; [apply (has_required_formats lib Hlib bib Hown); auto|].
    by destruct (Hall e He) as (_ & _ & Hy & _).
  - intros g' log' x. destruct Hparsed as (Hs & Hl & Hp).
    rewrite (add_publications_parsed _ _ _ _ _ _ Hs Hl Hp).
    destruct (publications_of lib bib) as [pubs|y] eqn:Hpubs; [done|].
    intros [= _ _ ->]. unfold publications_of in Hpubs.
    apply bind_Raise in Hpubs as [Hc|(ps & Hps & Hsort)].
    + destruct (collect_Raise_inv lib Hlib bib Hwf Hown _ _ Hin Hc) as (e & He & Hx).
      rewrite Hperm in He. exists e.
      destruct (first_missing e) as [n|] eqn:Hn.
      * exists n. rewrite (format_entry_first_missing lib e n) in Hx by auto.
        by injection Hx as <-.
      * apply first_missing_None in Hn; [|by auto].
        destruct (format_entry_required lib e Hn) as [fe Hfe]. congruence.
    + pose proof (collect_records lib bib _ _ Hwf Hin Hps) as Hrec.
      destruct (list_sort_reverse_spec itemgetter_1 ps) as (pubs & Hok & _); [|congruence].
      apply Forall_forall. intros p (e & He & Hr)%(Forall2_record_r lib _ _ _ Hrec).
      rewrite Hperm in He. destruct Hr as (_ & Hy & (fe & Hfe & _) & _).
      unfold itemgetter_1. rewrite Hy.
      by destruct (format_entry_Ok_required lib bib Hown e fe He Hfe) as (_ & _ & ? & _).
Qed.

Lemma bib_articles_own e : e ∈ values bib_articles → own_type e.
Proof. intros (_ & _ & _ & [[? _]|[[? _]|[? _]]])%bib_articles_required; unfold own_type; auto. Qed.

Lemma own_types_stored_or_field_missing_witness :
  ((∃ g', add_publications (examples.env bib_articles) (examples.configured "refs.bib") []
          = (g', [], Return)) ↔
   ∀ e, e ∈ values bib_articles → has_required e) ∧
  (∀ g' log' x,
     add_publications (examples.env bib_articles) (examples.configured "refs.bib") []
     = (g', log', Throw x) →
     ∃ e n, e ∈ values bib_articles ∧ first_missing e = Some n ∧
            x = FieldIsMissing n (key e)).
Proof.
  apply (own_types_stored_or_field_missing (examples.env bib_articles)
           (examples.lib bib_articles) (examples.configured "refs.bib") [] "refs.bib"
           bib_articles).
  - apply examples_parsed.
  - apply bib_articles_wf.
  - apply sort_entries_Permutation.
  - apply plain_style_renders.
  - apply bib_articles_own.
Defined.

(** ** Clauses of the templates *)

Lemma escape_nonempty c s : String.eqb (escape (String c s)) "" = false.
Proof.
  simpl. unfold escape_char.
  destruct (Ascii.eqb c "&"); [done|]. destruct (Ascii.eqb c "<"); [done|].
  by destruct (Ascii.eqb c ">").
Qed.

Lemma render_Text_nil sy : render sy (RText []) = Ok "".
Proof. reflexivity. Qed.

Lemma render_String sy s : render sy (RString s) = Ok (escape s).
Proof. reflexivity. Qed.

(** X11. format_bold_title, as a sentence: the value of the field comes
    out escaped between strong tags and is followed by a period, outside
    the tags, unless it already ends with a period, a question mark or an
    exclamation mark; an empty value gives no text at all.  A missing
    field is the exception FieldIsMissing. *)
Theorem bold_title_sentence e0 which_field e :
  format_bold_title e0 which_field true e ≫= render backend_symbols =
    match fields e !! which_field with
    | Some title => Ok (bold_title_html title)
    | None => Raise (FieldIsMissing which_field (key e))
    end.
Proof.
  unfold format_bold_title, sentence, join_sep, join_with, tag, field, field_with.
  cbn [format_list]. destruct (fields e !! which_field) as [title|]; [|done].
  cbn [mbind result_bind]. unfold bold_title_html.
  destruct title as [|c title]; [done|].
  change (String.eqb (String c title) "") with false.
  cbn [List.filter rt_nonempty existsb negb orb join_parts].
  change (String.eqb (String c title) "") with false.
  cbn [negb orb List.filter join_parts].
  unfold add_period. cbn [rt_nonempty existsb orb negb andb].
  change (String.eqb (String c title) "") with false. cbn [negb orb andb].
  assert (ends_sentence (RText [RTag "strong" [RString (String c title)]])
          = ends_sentence (RString (String c title))) as ->.
  { unfold ends_sentence. simpl. by destruct (last_char (String c title)). }
  pose proof (escape_nonempty c title) as Hne.
  destruct (ends_sentence (RString (String c title))); cbn [negb];
    rewrite !render_Text_cons, render_Tag, !render_Text_cons, !render_Text_nil,
      !render_String;
    cbn [mbind result_bind]; unfold format_tag; rewrite !append_nil_r, Hne;
    rewrite ?append_nil_r, ?append_assoc; reflexivity.
Qed.


(** ** The line breaks *)

Lemma contains_trans (x y z : string) : contains x y → contains y z → contains x z.
Proof.
  intros (p1 & q1 & ->) (p2 & q2 & ->). exists (p2 +:+ p1), (q1 +:+ q2).
  by rewrite !append_assoc.
Qed.

Lemma render_Text_elem sy l t s :
  t ∈ l → render sy (RText l) = Ok s → ∃ u, render sy t = Ok u ∧ contains u s.
Proof.
  revert s. induction l as [|a l IH]; intros s Hin; [by apply elem_of_nil in Hin|].
  rewrite render_Text_cons.
  intros (a' & Ha & (b & Hb & [= <-])%bind_Ok)%bind_Ok.
  apply elem_of_cons in Hin as [->|Hin].
  - exists a'. split; [done|]. by exists "", b.
  - destruct (IH b Hin Hb) as (u & Hu & Hc). exists u. split; [done|].
    by apply contains_app_r.
Qed.

Lemma elem_of_rt_join sep t l : t ∈ l → t ∈ rt_join sep l.
Proof.
  induction l as [|a l IH]; [done|].
  intros [->|Hin]%elem_of_cons; destruct l as [|b l].
  - by left.
  - by left.
  - by apply elem_of_nil in Hin.
  - right. right. by apply IH.
Qed.

Lemma elem_of_removelast_last {A} (l : list A) d t :
  t ∈ l → t ∈ removelast l ∨ t = List.last l d.
Proof.
  induction l as [|a l IH]; [by intros ?%elem_of_nil|].
  intros [->|Hin]%elem_of_cons; destruct l as [|b l].
  - by right.
  - left. by left.
  - by apply elem_of_nil in Hin.
  - destruct (IH Hin) as [H|H]; [left; by right|by right].
Qed.

Lemma render_join_parts_elem sy sep sep2 last_sep parts t s :
  t ∈ parts → render sy (join_parts sep sep2 last_sep parts) = Ok s →
  ∃ u, render sy t = Ok u ∧ contains u s.
Proof.
  destruct parts as [|a [|b [|c l]]]; unfold join_parts.
  - apply render_Text_elem.
  - apply render_Text_elem.
  - intros Hin. by apply render_Text_elem, elem_of_rt_join.
  - intros Hin Hr.
    destruct (elem_of_removelast_last (a :: b :: c :: l) (RText []) t Hin) as [H| ->].
    + eapply render_Text_elem in Hr as (s1 & Hs1 & Hc1); [|by left].
      eapply render_Text_elem in Hs1 as (u & Hu & Hc); [|by apply elem_of_rt_join].
      exists u. split; [done|]. by eapply contains_trans.
    + eapply render_Text_elem in Hr as (u & Hu & Hc); [by eauto|]. right. right. by left.
Qed.

Lemma format_list_elem cs c e parts :
  c ∈ cs → format_list cs e = Ok parts → ∃ r, c e = Ok r ∧ r ∈ parts.
Proof.
  revert parts. induction cs as [|c' cs IH]; intros parts Hin; [by apply elem_of_nil in Hin|].
  simpl. intros (t & Ht & (ts & Hts & [= <-])%bind_Ok)%bind_Ok.
  apply elem_of_cons in Hin as [->|Hin].
  - exists t. split; [done|by left].
  - destruct (IH ts Hin Hts) as (r & Hr & Hin'). exists r. split; [done|by right].
Qed.

(** A symbol among the children of [toplevel] is rendered with the text. *)
Lemma toplevel_symbol sy name cs e r s :
  Symbol name ∈ cs → toplevel cs e = Ok r → render sy r = Ok s →
  ∃ u, sy !! name = Some u ∧ contains u s.
Proof.
  intros Hin. unfold toplevel, join_sep, join_with.
  intros (parts & Hparts & [= <-])%bind_Ok Hr.
  destruct (format_list_elem cs _ e parts Hin Hparts) as (t & [= <-] & Ht).
  eapply (render_join_parts_elem _ _ _ _ _ (RSymbol name)) in Hr as (u & Hu & Hc);
    [|apply list_elem_of_In, filter_In; split; [by apply list_elem_of_In|done]].
  exists u. split; [|done]. simpl in Hu. by destruct (sy !! name) as [v|]; [injection Hu as ->|].
Qed.

Lemma format_entry_newline lib e fe sy s :
  own_type e → format_entry lib e = Ok fe → render sy (fe_text fe) = Ok s →
  ∃ u, sy !! "newline" = Some u ∧ contains u s.
Proof.
  intros [Htype|[Htype|Htype]]; unfold format_entry; rewrite Htype; simpl;
    intros (text & Htext & [= <-])%bind_Ok; simpl; intros Hr;
    (eapply toplevel_symbol; [|exact Htext|exact Hr]); set_solver.
Qed.

(** X13. Every text the three templates of CustomStyle produce has the
    symbol newline in it.  With the backend's table as the source updates
    it the rendered text contains the line break <br>; with the table of
    the library as it comes the rendering of such a text fails. *)
Theorem line_breaks_need_the_update lib e fe :
  own_type e → format_entry lib e = Ok fe →
  (∀ text, render backend_symbols (fe_text fe) = Ok text → contains "<br>" text) ∧
  (∀ text, render html_symbols (fe_text fe) ≠ Ok text).
Proof.
  intros Hown Hfe. split; intros text Hr;
    destruct (format_entry_newline lib e fe _ text Hown Hfe Hr) as (u & Hu & Hc).
  - by injection Hu as <-.
  - done.
Qed.

Lemma line_breaks_need_the_update_witness :
  (∀ text, render backend_symbols (fe_text foo_formatted) = Ok text → contains "<br>" text) ∧
  (∀ text, render html_symbols (fe_text foo_formatted) ≠ Ok text).
Proof.
  apply (line_breaks_need_the_update (examples.lib []) examples.foo foo_formatted).
  - by left.
  - by vm_compute.
Defined.
